(** * node-freefare: the binding core, embedded and verified

    The development follows the repository file by file:
    - [Common]     : common.h, the error constants and [LIBNFC_ERROR_TO_NFF];
    - [JsValue]    : the values, errors and promises of the JavaScript side;
    - [Native]     : the interface of the two external C libraries (reader
                     driver and card protocol library), the state a run
                     threads, and Nan's worker protocol;
    - one module per worker class of tag_ntag21x.cpp, and [TagNtag21x] for
      the binding methods that queue them;
    - [TagCpp]     : the C++ [Tag] wrapper (Tag::Init, Tag::GetTagType,
                     Tag::New, Tag::Instantiate);
    - one module per worker class of the C++ [Device] wrapper, and
      [DeviceCpp] for its binding methods, Device::New and
      Device::Instantiate;
    - [Js]         : the JavaScript classes layered on the bindings;
    - [JsFreefare] : Freefare.listDevices and the constructor of Device;
    - [Bench], [Faulty] : a simulated reader with three cards, and one
                     that fails.

    Integers of the C++ side are [Z] with the conversions written out;
    strings are [string]; a pointer that may be null is an [option]; a V8
    handle carries the state of the HandleScope it was created in; a
    JavaScript promise is the program-ordered list of the settle calls its
    executor performs, of which the first one counts. A run is a
    state-passing function over the hardware state and two logs: the
    binding methods entered and the library calls made. An operation is
    run to completion: the worker's [Execute], then its
    [HandleOKCallback], then the JavaScript callback. A JavaScript method
    finds a binding method only if the Init of the C++ class has put it on
    the prototype. *)

From Stdlib Require Import ZArith List String Bool Lia.
Import ListNotations.
Local Open Scope Z_scope.

(* ------------------------------------------------------------------ *)
(** ** common.h *)

Module Common.

Definition NFF_ERROR_OPEN_DEVICE : Z := 11.
Definition NFF_ERROR_INIT_LIBNFC : Z := 10.

(** LibNFC errors binding *)
Definition NFF_ERROR_LIBNFC_UNKNOWN : Z := 100.
Definition NFF_ERROR_LIBNFC_EIO : Z := 101.
Definition NFF_ERROR_LIBNFC_EINVARG : Z := 102.
Definition NFF_ERROR_LIBNFC_EDEVNOTSUPP : Z := 103.
Definition NFF_ERROR_LIBNFC_ENOTSUCHDEV : Z := 104.
Definition NFF_ERROR_LIBNFC_EOVFLOW : Z := 105.
Definition NFF_ERROR_LIBNFC_ETIMEOUT : Z := 106.
Definition NFF_ERROR_LIBNFC_EOPABORTED : Z := 107.
Definition NFF_ERROR_LIBNFC_ENOTIMPL : Z := 108.
Definition NFF_ERROR_LIBNFC_ETGRELEASED : Z := 109.
Definition NFF_ERROR_LIBNFC_ERFTRANS : Z := 110.
Definition NFF_ERROR_LIBNFC_EMFCAUTHFAIL : Z := 111.
Definition NFF_ERROR_LIBNFC_ESOFT : Z := 112.
Definition NFF_ERROR_LIBNFC_ECHIP : Z := 113.

Definition NFF_MAX_DEVICES : Z := 10.

(** The native error constants come from <nfc/nfc.h>, which is not part of
    the repository: the macro is embedded over any assignment of them. *)
Record nfc_errors : Type := {
  NFC_EIO : Z;
  NFC_EINVARG : Z;
  NFC_EDEVNOTSUPP : Z;
  NFC_ENOTSUCHDEV : Z;
  NFC_EOVFLOW : Z;
  NFC_ETIMEOUT : Z;
  NFC_EOPABORTED : Z;
  NFC_ENOTIMPL : Z;
  NFC_ETGRELEASED : Z;
  NFC_ERFTRANS : Z;
  NFC_EMFCAUTHFAIL : Z;
  NFC_ESOFT : Z;
  NFC_ECHIP : Z
}.

(** The values libnfc gives them, used as a concrete instance. *)
Definition libnfc_errors : nfc_errors := {|
  NFC_EIO := -1;
  NFC_EINVARG := -2;
  NFC_EDEVNOTSUPP := -3;
  NFC_ENOTSUCHDEV := -4;
  NFC_EOVFLOW := -5;
  NFC_ETIMEOUT := -6;
  NFC_EOPABORTED := -7;
  NFC_ENOTIMPL := -8;
  NFC_ETGRELEASED := -10;
  NFC_ERFTRANS := -20;
  NFC_EMFCAUTHFAIL := -30;
  NFC_ESOFT := -80;
  NFC_ECHIP := -90
|}.

(** #define LIBNFC_ERROR_TO_NFF(error): the chain of conditionals, in the
    macro's order. *)
Definition LIBNFC_ERROR_TO_NFF (nfc : nfc_errors) (error : Z) : Z :=
  if error =? NFC_EIO nfc then NFF_ERROR_LIBNFC_EIO
  else if error =? NFC_EINVARG nfc then NFF_ERROR_LIBNFC_EINVARG
  else if error =? NFC_EDEVNOTSUPP nfc then NFF_ERROR_LIBNFC_EDEVNOTSUPP
  else if error =? NFC_ENOTSUCHDEV nfc then NFF_ERROR_LIBNFC_ENOTSUCHDEV
  else if error =? NFC_EOVFLOW nfc then NFF_ERROR_LIBNFC_EOVFLOW
  else if error =? NFC_ETIMEOUT nfc then NFF_ERROR_LIBNFC_ETIMEOUT
  else if error =? NFC_EOPABORTED nfc then NFF_ERROR_LIBNFC_EOPABORTED
  else if error =? NFC_ENOTIMPL nfc then NFF_ERROR_LIBNFC_ENOTIMPL
  else if error =? NFC_ETGRELEASED nfc then NFF_ERROR_LIBNFC_ETGRELEASED
  else if error =? NFC_ERFTRANS nfc then NFF_ERROR_LIBNFC_ERFTRANS
  else if error =? NFC_EMFCAUTHFAIL nfc then NFF_ERROR_LIBNFC_EMFCAUTHFAIL
  else if error =? NFC_ESOFT nfc then NFF_ERROR_LIBNFC_ESOFT
  else if error =? NFC_ECHIP nfc then NFF_ERROR_LIBNFC_ECHIP
  else NFF_ERROR_LIBNFC_UNKNOWN.

(** The native codes the macro compares against (its mapped set). *)
Definition mapped_codes (nfc : nfc_errors) : list Z :=
  [ NFC_EIO nfc; NFC_EINVARG nfc; NFC_EDEVNOTSUPP nfc; NFC_ENOTSUCHDEV nfc;
    NFC_EOVFLOW nfc; NFC_ETIMEOUT nfc; NFC_EOPABORTED nfc; NFC_ENOTIMPL nfc;
    NFC_ETGRELEASED nfc; NFC_ERFTRANS nfc; NFC_EMFCAUTHFAIL nfc;
    NFC_ESOFT nfc; NFC_ECHIP nfc ].

(** The members of the error taxonomy, and the binding constant that
    stands for each of them. *)
Inductive taxonomy : Type :=
| IOError | InvalidArgument | DeviceNotSupported | NoSuchDevice | Overflow
| Timeout | OperationAborted | NotImplemented | TagReleased
| RFTransmissionError | AuthenticationFailed | SoftError | ChipError
| Unknown.

Definition taxonomy_code (t : taxonomy) : Z :=
  match t with
  | IOError => NFF_ERROR_LIBNFC_EIO
  | InvalidArgument => NFF_ERROR_LIBNFC_EINVARG
  | DeviceNotSupported => NFF_ERROR_LIBNFC_EDEVNOTSUPP
  | NoSuchDevice => NFF_ERROR_LIBNFC_ENOTSUCHDEV
  | Overflow => NFF_ERROR_LIBNFC_EOVFLOW
  | Timeout => NFF_ERROR_LIBNFC_ETIMEOUT
  | OperationAborted => NFF_ERROR_LIBNFC_EOPABORTED
  | NotImplemented => NFF_ERROR_LIBNFC_ENOTIMPL
  | TagReleased => NFF_ERROR_LIBNFC_ETGRELEASED
  | RFTransmissionError => NFF_ERROR_LIBNFC_ERFTRANS
  | AuthenticationFailed => NFF_ERROR_LIBNFC_EMFCAUTHFAIL
  | SoftError => NFF_ERROR_LIBNFC_ESOFT
  | ChipError => NFF_ERROR_LIBNFC_ECHIP
  | Unknown => NFF_ERROR_LIBNFC_UNKNOWN
  end.

(** Reading a binding constant back as a taxonomy member. *)
Definition taxonomy_of_code (c : Z) : option taxonomy :=
  if c =? NFF_ERROR_LIBNFC_UNKNOWN then Some Unknown
  else if c =? NFF_ERROR_LIBNFC_EIO then Some IOError
  else if c =? NFF_ERROR_LIBNFC_EINVARG then Some InvalidArgument
  else if c =? NFF_ERROR_LIBNFC_EDEVNOTSUPP then Some DeviceNotSupported
  else if c =? NFF_ERROR_LIBNFC_ENOTSUCHDEV then Some NoSuchDevice
  else if c =? NFF_ERROR_LIBNFC_EOVFLOW then Some Overflow
  else if c =? NFF_ERROR_LIBNFC_ETIMEOUT then Some Timeout
  else if c =? NFF_ERROR_LIBNFC_EOPABORTED then Some OperationAborted
  else if c =? NFF_ERROR_LIBNFC_ENOTIMPL then Some NotImplemented
  else if c =? NFF_ERROR_LIBNFC_ETGRELEASED then Some TagReleased
  else if c =? NFF_ERROR_LIBNFC_ERFTRANS then Some RFTransmissionError
  else if c =? NFF_ERROR_LIBNFC_EMFCAUTHFAIL then Some AuthenticationFailed
  else if c =? NFF_ERROR_LIBNFC_ESOFT then Some SoftError
  else if c =? NFF_ERROR_LIBNFC_ECHIP then Some ChipError
  else None.

End Common.

(* ------------------------------------------------------------------ *)
(** ** JavaScript values, errors and promises *)

Module JsValue.

(** The native handles are pointers; [0] is the null pointer. *)
Definition MifareTag : Type := Z.
Definition nfc_device : Type := Z.

(** The classes of index.js that wrap a native tag object. *)
Inductive handler_class : Type :=
| Tag | MifareUltralightTag | MifareClassicTag | MifareDesfireTag | NTag21xTag.

(** The values that cross the binding: what a worker hands to its callback
    and what a promise is resolved with. *)
#[local] Unset Elimination Schemes.
Inductive js_value : Type :=
| Null
| Undefined
| Number (n : Z)
| Str (s : string)
| Buffer (bytes : list Z)
| Array (items : list js_value)
| Object (fields : list (string * js_value))
| CppTag (tag : MifareTag)                       (* a wrapped C++ Tag *)
| Handler (class : handler_class) (cppTag : js_value).  (* new Class(cppTag) *)
#[local] Set Elimination Schemes.

(** [if (v)] *)
Definition truthy (v : js_value) : bool :=
  match v with
  | Null | Undefined => false
  | Number n => negb (n =? 0)
  | Str s => negb (String.eqb s EmptyString)
  | _ => true
  end.

(** The i-th actual argument of a call; a missing one reads [undefined]. *)
Definition arg (i : nat) (argv : list js_value) : js_value :=
  nth i argv Undefined.

Inductive js_error : Type :=
| Error (message : string)
| UnknownError (error : js_value)  (* Error('Unknown error (' + error + ')') *)
| AssertionError (message : string)
| TypeError (message : string).

(** A call of [resolve] or [reject] made by a promise's executor. *)
Inductive settle : Type :=
| resolve (v : js_value)
| reject (e : js_error).

(** A promise is the list of the settle calls of its executor, in program
    order; only the first one takes effect. *)
Definition Promise : Type := list settle.

Definition completions (p : Promise) : list settle := firstn 1 p.

Definition settled (p : Promise) : option settle := hd_error p.

(** What a caller of a method of index.js observes: an exception raised
    before a promise exists; the promise; the promise together with an
    exception raised later inside the completion callback; or no answer at
    all because the native side faulted (a null pointer read, a handle
    used out of its scope). *)
Inductive outcome : Type :=
| Threw (e : js_error)
| Returned (p : Promise)
| Uncaught (p : Promise) (e : js_error)
| Faulted.

End JsValue.

(* ------------------------------------------------------------------ *)
(** ** The external libraries and the execution state *)

Module Native.
Import JsValue.

(** Modelled from the spec: the family tag of a card, one of classic-1k,
    classic-4k, file-oriented, simple-memory, extended-memory and unknown,
    under the names the code has for them. The enumeration itself is
    declared by the card library's header, which is not among the files of
    the repository; ULTRALIGHT_C is the one further enumerator the code
    names, and [OTHER_FAMILY] stands for every enumerator it does not. *)
Inductive mifare_tag_type : Type :=
| CLASSIC_1K | CLASSIC_4K | DESFIRE | ULTRALIGHT | ULTRALIGHT_C
| NTAG_21x | OTHER_FAMILY.

(** Modelled from the spec: the capacity variant that getSubType
    discriminates. The enumeration is declared by the same header; the
    code names three enumerators, and [NTAG_UNKNOWN] stands for every
    other one. *)
Inductive ntag_tag_subtype : Type :=
| NTAG_213 | NTAG_215 | NTAG_216 | NTAG_UNKNOWN.

(** The bytes found behind a pointer after a call, by offset. *)
Definition memory : Type := nat -> Z.

(** A call into one of the two C libraries. *)
Inductive native_call : Type :=
| call_nfc_open (connstring : string)
| call_nfc_close (device : nfc_device)
| call_nfc_abort_command (device : nfc_device)
| call_freefare_get_tags (device : nfc_device)
| call_ntag21x_connect (tag : MifareTag)
| call_ntag21x_get_info (tag : MifareTag)
| call_ntag21x_disconnect (tag : MifareTag)
| call_ntag21x_read4 (tag : MifareTag) (page : Z)
| call_ntag21x_fast_read (tag : MifareTag) (start_page end_page : Z)
| call_ntag21x_write (tag : MifareTag) (page : Z) (data : list Z)
| call_ntag21x_get_subtype (tag : MifareTag).

(** The libraries themselves: each function answers in the current state
    [world] of the hardware and moves it. A function that fills a buffer of
    the caller returns the buffer's contents after the call. *)
Record library (world : Type) : Type := {
  nfc_open : string -> world -> nfc_device * world;
  nfc_close : nfc_device -> world -> unit * world;
  nfc_abort_command : nfc_device -> world -> Z * world;
  freefare_get_tags : nfc_device -> world -> option (list MifareTag) * world;
  freefare_get_tag_type : MifareTag -> mifare_tag_type;
  freefare_get_tag_friendly_name : MifareTag -> string;
  freefare_get_tag_uid : MifareTag -> string;
  ntag21x_connect : MifareTag -> world -> Z * world;
  ntag21x_get_info : MifareTag -> world -> Z * world;
  ntag21x_disconnect : MifareTag -> world -> Z * world;
  ntag21x_read4 : MifareTag -> Z -> world -> (Z * memory) * world;
  ntag21x_fast_read : MifareTag -> Z -> Z -> world -> (Z * memory) * world;
  ntag21x_write : MifareTag -> Z -> list Z -> world -> Z * world;
  ntag21x_get_subtype : MifareTag -> world -> ntag_tag_subtype * world
}.

Arguments nfc_open {world}.
Arguments nfc_close {world}.
Arguments nfc_abort_command {world}.
Arguments freefare_get_tags {world}.
Arguments freefare_get_tag_type {world}.
Arguments freefare_get_tag_friendly_name {world}.
Arguments freefare_get_tag_uid {world}.
Arguments ntag21x_connect {world}.
Arguments ntag21x_get_info {world}.
Arguments ntag21x_disconnect {world}.
Arguments ntag21x_read4 {world}.
Arguments ntag21x_fast_read {world}.
Arguments ntag21x_write {world}.
Arguments ntag21x_get_subtype {world}.

(** The state a run threads: the hardware, the binding methods invoked
    from JavaScript so far (name and actual arguments), and the library
    calls made so far. *)
Record state (world : Type) : Type := mkState {
  hw : world;
  submitted : list (string * list js_value);
  calls : list native_call
}.

Arguments mkState {world}.
Arguments hw {world}.
Arguments submitted {world}.
Arguments calls {world}.

Definition M (world A : Type) : Type := state world -> A * state world.

Definition ret {world A : Type} (a : A) : M world A := fun s => (a, s).

Definition bind {world A B : Type} (m : M world A) (k : A -> M world B)
  : M world B :=
  fun s => let (a, s') := m s in k a s'.

(** One library call: logged, then answered by the library. *)
Definition invoke {world A : Type} (c : native_call)
    (f : world -> A * world) : M world A :=
  fun s => let (a, w) := f (hw s) in
           (a, mkState w (submitted s) (calls s ++ [c])).

(** One binding method entered from JavaScript. *)
Definition submit {world : Type} (name : string) (argv : list js_value)
  : M world unit :=
  fun s => (tt, mkState (hw s) (submitted s ++ [(name, argv)]) (calls s)).

(** Nan::AsyncWorker: the two methods every worker of the binding
    overrides. [HandleOKCallback] yields the arguments the JavaScript
    callback is called with, or [None] when it faults before the call (it
    reads through a null pointer, or uses a handle out of its scope). *)
Record AsyncWorker (world W : Type) : Type := {
  Execute : W -> M world W;
  HandleOKCallback : W -> option (list js_value)
}.

Arguments Execute {world W}.
Arguments HandleOKCallback {world W}.

(** Nan::AsyncQueueWorker: [Execute] on the pool, then [HandleOKCallback]
    (no worker of the binding ever sets an error message). *)
Definition AsyncQueueWorker {world W : Type} (methods : AsyncWorker world W)
    (w : W) : M world (option (list js_value)) :=
  bind (Execute methods w) (fun w' => ret (HandleOKCallback methods w')).

(** C++ integer conversions at the binding. *)
Definition Uint32Value (n : Z) : Z := n mod 2 ^ 32.
Definition uint8_t (n : Z) : Z := n mod 2 ^ 8.

(** Nan::CopyBuffer(data, length) *)
Definition CopyBuffer (data : memory) (length : Z) : list Z :=
  map data (seq 0 (Z.to_nat length)).

(** node::Buffer::Data(buffer): the address of the bytes of a Buffer, a
    null pointer ([None]) for an empty one. The bytes of the Buffer lie at
    the offsets below its length; an offset from its length on reads what
    lies behind the Buffer in memory, [beyond]. *)
Definition Buffer_Data (beyond : memory) (bytes : list Z) : option memory :=
  match bytes with
  | [] => None
  | _ :: _ =>
      Some (fun i => if (i <? List.length bytes)%nat then nth i bytes 0
                     else beyond (i - List.length bytes)%nat)
  end.

(** A v8::Local handle: the value it refers to, and whether the
    HandleScope it was created in is still open. A function that declares
    a Nan::HandleScope and returns one of the handles created under it
    (there is no EscapableHandleScope in the binding) returns a handle
    whose scope has closed. *)
Record Local (A : Type) : Type := mkLocal {
  referent : A;
  scope_open : bool
}.

Arguments mkLocal {A}.
Arguments referent {A}.
Arguments scope_open {A}.

(** A use of a handle (reading the value through it, storing it in an
    array). V8 gives no meaning to the use of a handle whose scope has
    closed: the run ends there, with a fault ([None]). *)
Definition use {A : Type} (h : Local A) : option A :=
  if scope_open h then Some (referent h) else None.

End Native.

Declare Scope monad_scope.
Notation "x <- m ;; k" := (Native.bind m (fun x => k))
(at level 61, m at next level, right associativity) : monad_scope.
Notation "m ;;; k" := (Native.bind m (fun _ => k))
(at level 61, right associativity) : monad_scope.

(* ------------------------------------------------------------------ *)
(** ** tag_ntag21x.cpp *)

Module ntag21x_connectWorker.
Import JsValue Native.
Local Open Scope monad_scope.
Section Worker.
Context {world : Type} (lib : library world).

Record t : Type := { tag : MifareTag; error : Z }.

Definition new (tag : MifareTag) : t := {| tag := tag; error := 0 |}.

Definition Execute (w : t) : M world t :=
  e <- invoke (call_ntag21x_connect (tag w)) (ntag21x_connect lib (tag w)) ;;
  (* TODO: implement error handling *)
  invoke (call_ntag21x_get_info (tag w)) (ntag21x_get_info lib (tag w)) ;;;
  ret {| tag := tag w; error := e |}.

Definition HandleOKCallback (w : t) : option (list js_value) :=
  Some [Number (error w)].

Definition methods : AsyncWorker world t :=
  {| Native.Execute := Execute; Native.HandleOKCallback := HandleOKCallback |}.

End Worker.
End ntag21x_connectWorker.

Module ntag21x_disconnectWorker.
Import JsValue Native.
Local Open Scope monad_scope.
Section Worker.
Context {world : Type} (lib : library world).

Record t : Type := { tag : MifareTag; error : Z }.

Definition new (tag : MifareTag) : t := {| tag := tag; error := 0 |}.

Definition Execute (w : t) : M world t :=
  e <- invoke (call_ntag21x_disconnect (tag w))
         (ntag21x_disconnect lib (tag w)) ;;
  ret {| tag := tag w; error := e |}.

Definition HandleOKCallback (w : t) : option (list js_value) :=
  Some [Number (error w)].

Definition methods : AsyncWorker world t :=
  {| Native.Execute := Execute; Native.HandleOKCallback := HandleOKCallback |}.

End Worker.
End ntag21x_disconnectWorker.

Module ntag21x_readWorker.
Import JsValue Native.
Local Open Scope monad_scope.
Section Worker.
Context {world : Type} (lib : library world).

(** [data] is the array [uint8_t data[4]]; it is indeterminate until
    [Execute] has run, and is not read before. *)
Record t : Type := { tag : MifareTag; page : Z; data : memory; error : Z }.

Definition new (tag : MifareTag) (page : Z) : t :=
  {| tag := tag; page := uint8_t page; data := fun _ => 0; error := 0 |}.

Definition Execute (w : t) : M world t :=
  r <- invoke (call_ntag21x_read4 (tag w) (page w))
         (ntag21x_read4 lib (tag w) (page w)) ;;
  ret {| tag := tag w; page := page w; data := snd r; error := fst r |}.

(** sizeof(data) is 4. *)
Definition HandleOKCallback (w : t) : option (list js_value) :=
  Some [Number (error w); Buffer (CopyBuffer (data w) 4)].

Definition methods : AsyncWorker world t :=
  {| Native.Execute := Execute; Native.HandleOKCallback := HandleOKCallback |}.

End Worker.
End ntag21x_readWorker.

Module ntag21x_fastReadWorker.
Import JsValue Native.
Local Open Scope monad_scope.
Section Worker.
Context {world : Type} (lib : library world).

(** [data] and [length] are assigned by [Execute] and are not read before. *)
Record t : Type := {
  tag : MifareTag;
  start_page : Z;
  end_page : Z;
  data : memory;
  length : Z;
  error : Z
}.

Definition new (tag : MifareTag) (start_page end_page : Z) : t :=
  {| tag := tag; start_page := uint8_t start_page;
     end_page := uint8_t end_page; data := fun _ => 0; length := 0;
     error := 0 |}.

Definition Execute (w : t) : M world t :=
  (* avoid this for now *)
  let end_page := if start_page w >? end_page w then start_page w
                  else end_page w in
  let no_pages := end_page - start_page w + 1 in
  let length := no_pages * 4 in
  r <- invoke (call_ntag21x_fast_read (tag w) (start_page w) end_page)
         (ntag21x_fast_read lib (tag w) (start_page w) end_page) ;;
  ret {| tag := tag w; start_page := start_page w; end_page := end_page;
         data := snd r; length := length; error := fst r |}.

Definition HandleOKCallback (w : t) : option (list js_value) :=
  Some [Number (error w); Buffer (CopyBuffer (data w) (length w))].

Definition methods : AsyncWorker world t :=
  {| Native.Execute := Execute; Native.HandleOKCallback := HandleOKCallback |}.

End Worker.
End ntag21x_fastReadWorker.

Module ntag21x_writeWorker.
Import JsValue Native.
Local Open Scope monad_scope.
Section Worker.
Context {world : Type} (lib : library world).

(** [data] is the array [uint8_t data[4]]. *)
Record t : Type := { tag : MifareTag; page : Z; data : list Z; error : Z }.

(** The constructor takes a pointer, [data]:
    memcpy(this->data, data, sizeof(this->data)) copies the four bytes
    found at it, whatever the length of the buffer it points into, and
    faults on a null pointer ([None]). *)
Definition new (tag : MifareTag) (page : Z) (data : option memory)
  : option t :=
  match data with
  | Some bytes =>
      Some {| tag := tag; page := uint8_t page;
              data := map bytes (seq 0 4); error := 0 |}
  | None => None
  end.

Definition Execute (w : t) : M world t :=
  e <- invoke (call_ntag21x_write (tag w) (page w) (data w))
         (ntag21x_write lib (tag w) (page w) (data w)) ;;
  ret {| tag := tag w; page := page w; data := data w; error := e |}.

Definition HandleOKCallback (w : t) : option (list js_value) :=
  Some [Number (error w)].

Definition methods : AsyncWorker world t :=
  {| Native.Execute := Execute; Native.HandleOKCallback := HandleOKCallback |}.

End Worker.
End ntag21x_writeWorker.

Module ntag21x_getSubTypeWorker.
Import JsValue Native.
Local Open Scope monad_scope.
Section Worker.
Context {world : Type} (lib : library world).

(** [subtype] is assigned by every branch of [Execute] and is not read
    before. *)
Record t : Type := { tag : MifareTag; subtype : Z; error : Z }.

Definition new (tag : MifareTag) : t :=
  {| tag := tag; subtype := 0; error := 0 |}.

Definition Execute (w : t) : M world t :=
  st <- invoke (call_ntag21x_get_subtype (tag w))
          (ntag21x_get_subtype lib (tag w)) ;;
  ret {| tag := tag w;
         subtype := match st with
                    | NTAG_213 => 213
                    | NTAG_215 => 215
                    | NTAG_216 => 216
                    | _ => 0
                    end;
         error := error w |}.

Definition HandleOKCallback (w : t) : option (list js_value) :=
  Some [Number (error w); Number (subtype w)].

Definition methods : AsyncWorker world t :=
  {| Native.Execute := Execute; Native.HandleOKCallback := HandleOKCallback |}.

End Worker.
End ntag21x_getSubTypeWorker.

(** The NAN_METHODs of tag_ntag21x.cpp: [obj] is the wrapped C++ [Tag]'s
    [tag] field, the other arguments are [info[i]] (numbers go through
    [Uint32Value], then through the constructor's [uint8_t] parameter). *)
Module TagNtag21x.
Import JsValue Native.
Local Open Scope monad_scope.
Section Methods.
Context {world : Type} (lib : library world).

(** What lies in memory behind the Buffer handed to Tag::ntag21x_write. *)
Context (beyond : memory).

Definition Tag_ntag21x_connect (obj : MifareTag)
  : M world (option (list js_value)) :=
  submit "ntag21x_connect" [] ;;;
  AsyncQueueWorker (ntag21x_connectWorker.methods lib)
    (ntag21x_connectWorker.new obj).

Definition Tag_ntag21x_disconnect (obj : MifareTag)
  : M world (option (list js_value)) :=
  submit "ntag21x_disconnect" [] ;;;
  AsyncQueueWorker (ntag21x_disconnectWorker.methods lib)
    (ntag21x_disconnectWorker.new obj).

Definition Tag_ntag21x_read4 (obj : MifareTag) (info0 : Z)
  : M world (option (list js_value)) :=
  submit "ntag21x_read4" [Number info0] ;;;
  AsyncQueueWorker (ntag21x_readWorker.methods lib)
    (ntag21x_readWorker.new obj (Uint32Value info0)).

Definition Tag_ntag21x_fast_read (obj : MifareTag) (info0 info1 : Z)
  : M world (option (list js_value)) :=
  submit "ntag21x_fast_read" [Number info0; Number info1] ;;;
  AsyncQueueWorker (ntag21x_fastReadWorker.methods lib)
    (ntag21x_fastReadWorker.new obj (Uint32Value info0) (Uint32Value info1)).

(** The worker is built, and the four bytes copied, before it is queued. *)
Definition Tag_ntag21x_write (obj : MifareTag) (info0 : Z) (info1 : list Z)
  : M world (option (list js_value)) :=
  submit "ntag21x_write" [Number info0; Buffer info1] ;;;
  match ntag21x_writeWorker.new obj (Uint32Value info0)
          (Buffer_Data beyond info1) with
  | Some w => AsyncQueueWorker (ntag21x_writeWorker.methods lib) w
  | None => ret None
  end.

Definition Tag_ntag21x_get_subtype (obj : MifareTag)
  : M world (option (list js_value)) :=
  submit "ntag21x_get_subtype" [] ;;;
  AsyncQueueWorker (ntag21x_getSubTypeWorker.methods lib)
    (ntag21x_getSubTypeWorker.new obj).

End Methods.
End TagNtag21x.

(* ------------------------------------------------------------------ *)
(** ** The C++ [Tag] wrapper (Tag::Init, Tag::GetTagType, ...) *)

Module TagCpp.
Import JsValue Native.
Section Methods.
Context {world : Type} (lib : library world).

(** The methods Tag::Init puts on the prototype. *)
Definition Init_methods : list string :=
  [ "getTagType"; "getTagFriendlyName"; "getTagUID";
    "mifareUltralight_connect"; "mifareUltralight_disconnect";
    "mifareUltralight_read"; "mifareUltralight_write";
    "mifareClassic_connect"; "mifareClassic_disconnect";
    "mifareClassic_authenticate"; "mifareClassic_read";
    "mifareClassic_initValue"; "mifareClassic_readValue";
    "mifareClassic_write"; "mifareClassic_increment";
    "mifareClassic_decrement"; "mifareClassic_restore";
    "mifareClassic_transfer";
    "mifareDesfire_connect"; "mifareDesfire_disconnect";
    "mifareDesfire_authenticate_des"; "mifareDesfire_authenticate_3des";
    "mifareDesfire_getApplicationIds"; "mifareDesfire_selectApplication";
    "mifareDesfire_getFileIds"; "mifareDesfire_write";
    "mifareDesfire_read" ]%string.

(** Tag::GetTagType: [typeStr] starts as "Unknown" and the switch has the
    five cases below. *)
Definition GetTagType (obj : MifareTag) : string :=
  match freefare_get_tag_type lib obj with
  | CLASSIC_1K => "MIFARE_CLASSIC_1K"
  | CLASSIC_4K => "MIFARE_CLASSIC_4K"
  | DESFIRE => "MIFARE_DESFIRE"
  | ULTRALIGHT => "MIFARE_ULTRALIGHT"
  | ULTRALIGHT_C => "MIFARE_ULTRALIGHT_C"
  | _ => "Unknown"
  end%string.

Definition GetTagFriendlyName (obj : MifareTag) : string :=
  freefare_get_tag_friendly_name lib obj.

Definition GetTagUID (obj : MifareTag) : string :=
  freefare_get_tag_uid lib obj.

End Methods.

(** MifareTag Tag::constructorTag = NULL: the static through which
    Tag::Instantiate hands the tag to Tag::New. *)
Definition constructorTag_initial : MifareTag := 0.

(** Tag::New as a construct call: the object wraps the static's current
    value and the static is reset to NULL. The result is the wrapped
    object and the static afterwards. (The lines written to std::cout,
    here and in the other functions, are left out.) *)
Definition Tag_New_construct (constructorTag : MifareTag)
  : js_value * MifareTag :=
  (CppTag constructorTag, 0).

(** Tag::New: a plain call builds a new instance through the constructor,
    which enters Tag::New again as a construct call; [info[0]] is handed
    on and never read. *)
Definition Tag_New (IsConstructCall : bool) (info0 : js_value)
    (constructorTag : MifareTag) : js_value * MifareTag :=
  if IsConstructCall then Tag_New_construct constructorTag
  else Tag_New_construct constructorTag.

(** Tag::Instantiate: under its own Nan::HandleScope, the parameter is
    stored in the static and a new instance is built with no arguments;
    [return rtn] then hands out a handle of that scope, which closes as
    the function returns. *)
Definition Tag_Instantiate (tag : MifareTag) (constructorTag : MifareTag)
  : Local js_value * MifareTag :=
  let (rtn, static) := Tag_New true Undefined tag in
  ({| referent := rtn; scope_open := false |}, static).

End TagCpp.

(* ------------------------------------------------------------------ *)
(** ** The C++ [Device] wrapper and its workers *)

Module OpenWorker.
Import JsValue Native Common.
Local Open Scope monad_scope.
Section Worker.
Context {world : Type} (lib : library world).

(** [deviceabc] points at the [device] field of the [Device] object; the
    record holds the cell it points at. *)
Record t : Type := { connstring : string; deviceabc : nfc_device }.

Definition new (connstring : string) (devicecde : nfc_device) : t :=
  {| connstring := connstring; deviceabc := devicecde |}.

Definition Execute (w : t) : M world t :=
  (* open Device *)
  d <- invoke (call_nfc_open (connstring w)) (nfc_open lib (connstring w)) ;;
  ret {| connstring := connstring w; deviceabc := d |}.

(** Return error or null *)
Definition HandleOKCallback (w : t) : option (list js_value) :=
  Some [if deviceabc w =? 0 then Number NFF_ERROR_OPEN_DEVICE else Null].

Definition methods : AsyncWorker world t :=
  {| Native.Execute := Execute; Native.HandleOKCallback := HandleOKCallback |}.

End Worker.
End OpenWorker.

Module CloseWorker.
Import JsValue Native.
Local Open Scope monad_scope.
Section Worker.
Context {world : Type} (lib : library world).

Record t : Type := { device : nfc_device }.

Definition new (device : nfc_device) : t := {| device := device |}.

Definition Execute (w : t) : M world t :=
  invoke (call_nfc_close (device w)) (nfc_close lib (device w)) ;;;
  ret w.

Definition HandleOKCallback (w : t) : option (list js_value) :=
  Some [Null].

Definition methods : AsyncWorker world t :=
  {| Native.Execute := Execute; Native.HandleOKCallback := HandleOKCallback |}.

End Worker.
End CloseWorker.

Module ListTagsWorker.
Import JsValue Native.
Local Open Scope monad_scope.
Section Worker.
Context {world : Type} (lib : library world).

(** [tags] is the null-terminated array the card library returns, or a
    null pointer ([None]); it is assigned by [Execute]. *)
Record t : Type := { deviceabc : nfc_device; tags : option (list MifareTag) }.

Definition new (devicecde : nfc_device) : t :=
  {| deviceabc := devicecde; tags := None |}.

Definition Execute (w : t) : M world t :=
  r <- invoke (call_freefare_get_tags (deviceabc w))
         (freefare_get_tags lib (deviceabc w)) ;;
  ret {| deviceabc := deviceabc w; tags := r |}.

(** The loop over the [count] tags found, threading the static
    constructorTag:
      tmp = Tag::Instantiate(tags[i]);
      Nan::ToDetailString(tmp); Nan::Set(results, i, tmp);
    [tmp] is used as Tag::Instantiate returns it. The result is [None]
    when a turn of the loop faults. *)
Fixpoint instantiate_all (found : list MifareTag) (constructorTag : MifareTag)
  : option (list js_value) * MifareTag :=
  match found with
  | [] => (Some [], constructorTag)
  | tag :: rest =>
      let (tmp, static1) := TagCpp.Tag_Instantiate tag constructorTag in
      match use tmp with
      | Some object =>
          let (results, static2) := instantiate_all rest static1 in
          (option_map (cons object) results, static2)
      | None => (None, static1)
      end
  end.

(** The count loop reads [tags[count]] at once, so a null [tags] is
    dereferenced; otherwise the entries are instantiated in turn and the
    callback gets [(null, results)]. The value the static has on entry is
    overwritten before it is read, so the summary starts it at NULL. *)
Definition HandleOKCallback (w : t) : option (list js_value) :=
  match tags w with
  | None => None
  | Some found =>
      match fst (instantiate_all found TagCpp.constructorTag_initial) with
      | Some results => Some [Null; Array results]
      | None => None
      end
  end.

Definition methods : AsyncWorker world t :=
  {| Native.Execute := Execute; Native.HandleOKCallback := HandleOKCallback |}.

End Worker.
End ListTagsWorker.

Module AbortWorker.
Import JsValue Native.
Local Open Scope monad_scope.
Section Worker.
Context {world : Type} (lib : library world).

(** [callback->Call(2, argv)] passes two arguments although [argv] holds
    one: the second is whatever lies behind the array, [overrun]. *)
Context (overrun : js_value).

Record t : Type := { deviceabc : nfc_device; error : Z }.

Definition new (devicecde : nfc_device) : t :=
  {| deviceabc := devicecde; error := 0 |}.

Definition Execute (w : t) : M world t :=
  e <- invoke (call_nfc_abort_command (deviceabc w))
         (nfc_abort_command lib (deviceabc w)) ;;
  ret {| deviceabc := deviceabc w; error := e |}.

Definition HandleOKCallback (w : t) : option (list js_value) :=
  Some [Number (error w); overrun].

Definition methods : AsyncWorker world t :=
  {| Native.Execute := Execute; Native.HandleOKCallback := HandleOKCallback |}.

End Worker.
End AbortWorker.

Module DeviceCpp.
Import JsValue Native.
Local Open Scope monad_scope.
Section Methods.
Context {world : Type} (lib : library world) (overrun : js_value).

(** class Device: the connection string and the driver's device pointer
    (which the constructor leaves unset and only Device::Open assigns). *)
Record Device : Type := { connstring : string; device : nfc_device }.

(** The methods Device::Init puts on the prototype. *)
Definition Init_methods : list string :=
  [ "open"; "listTags"; "getConnstring"; "abort" ]%string.

(** Device::Open: the worker writes the opened device through
    [&(obj->device)]. *)
Definition Device_Open (obj : Device)
  : M world (Device * option (list js_value)) :=
  submit "open" [] ;;;
  fun s =>
    let (w, s') := Execute (OpenWorker.methods lib)
                     (OpenWorker.new (connstring obj) (device obj)) s in
    (({| connstring := connstring obj; device := OpenWorker.deviceabc w |},
      OpenWorker.HandleOKCallback w), s').

Definition Device_Close (obj : Device) : M world (option (list js_value)) :=
  submit "close" [] ;;;
  AsyncQueueWorker (CloseWorker.methods lib) (CloseWorker.new (device obj)).

Definition Device_GetConnstring (obj : Device) : string := connstring obj.

Definition Device_ListTags (obj : Device)
  : M world (option (list js_value)) :=
  submit "listTags" [] ;;;
  AsyncQueueWorker (ListTagsWorker.methods lib)
    (ListTagsWorker.new (device obj)).

Definition Device_Abort (obj : Device) : M world (option (list js_value)) :=
  submit "abort" [] ;;;
  AsyncQueueWorker (AbortWorker.methods lib overrun)
    (AbortWorker.new (device obj)).

(** Device::New as a construct call: the connection string is
    [info[0]->ToString()]; Device's constructor leaves [device] unset, so
    the field holds whatever the fresh memory holds, [unset]. *)
Definition Device_New_construct (info0 : string) (unset : nfc_device)
  : Device :=
  {| connstring := info0; device := unset |}.

(** Device::Instantiate: the instance is built under the function's own
    Nan::HandleScope, and [return rtn] hands out a handle of that scope,
    which closes as the function returns. *)
Definition Device_Instantiate (connstring : string) (unset : nfc_device)
  : Local Device :=
  {| referent := Device_New_construct connstring unset;
     scope_open := false |}.

End Methods.
End DeviceCpp.

(* ------------------------------------------------------------------ *)
(** ** The JavaScript classes *)

Module Js.
Import JsValue Native.
Local Open Scope monad_scope.
Section Classes.
Context {world : Type} (lib : library world) (overrun : js_value)
  (beyond : memory).

(** The binding methods of the other card families (the mifareUltralight,
    mifareClassic and mifareDesfire methods) are defined in C++ files that
    are not among the files of the repository. Each is a parameter of
    which nothing is assumed: entered with its arguments, it moves the
    hardware and either faults before any call of the callback ([None]) or
    has the callback called some number of times, with the arguments
    listed, in order; the workers whose source is present call it once,
    the empty list is a binding method that never calls back. *)
Context (absent : string -> list js_value -> world ->
                  option (list (list js_value)) * world).

Definition ERROR_INIT_LIBNFC : Z := 10.
Definition ERROR_OPEN_DEVICE : Z := 11.

Definition call_absent (name : string) (argv : list js_value)
  : M world (option (list (list js_value))) :=
  submit name argv ;;;
  fun s => let (r, w) := absent name argv (hw s) in
           (r, mkState w (submitted s) (calls s)).

(** assert(cond, message) in front of the promise. *)
Definition assert (cond : bool) (message : string) (k : M world outcome)
  : M world outcome :=
  if cond then k else ret (Threw (AssertionError message)).

(** this[cppObj].name: the wrapped C++ object has the methods that the
    Init of its class has put on the prototype, and no others. *)
Definition has_method (prototype : list string) (name : string) : bool :=
  existsb (String.eqb name) prototype.

(** What calling a method the object does not have comes to, inside the
    executor of a promise. *)
Definition not_a_function (name : string) : outcome :=
  Returned
    [reject
       (TypeError ("this[cppObj]." ++ name ++ " is not a function")%string)].

(** return new Promise((resolve, reject) =>
      this[cppObj].name(..., callback)):
    calling a method the object does not have raises a TypeError inside
    the executor, which rejects the promise. *)
Definition promised (prototype : list string) (name : string)
    (binding : M world (option (list js_value)))
    (callback : list js_value -> Promise) : M world outcome :=
  if has_method prototype name then
    r <- binding ;;
    ret match r with
        | Some argv => Returned (callback argv)
        | None => Faulted
        end
  else ret (not_a_function name).

(** The promise after the callback has been called with each of
    [invocations] in turn: the settle calls of all the calls, in order. *)
Definition called_back (callback : list js_value -> Promise)
    (invocations : list (list js_value)) : Promise :=
  List.concat (map callback invocations).

(** What a method whose binding is one of the parameters comes to, given
    what the binding did. *)
Definition answered (callback : list js_value -> Promise)
    (r : option (list (list js_value))) : outcome :=
  match r with
  | Some invocations => Returned (called_back callback invocations)
  | None => Faulted
  end.

(** A method of a tag class whose binding is one of the parameters. *)
Definition promised_absent (name : string) (argv : list js_value)
    (callback : list js_value -> Promise) : M world outcome :=
  if has_method TagCpp.Init_methods name then
    r <- call_absent name argv ;;
    ret (answered callback r)
  else ret (not_a_function name).

(** if(error) { switch (error) { default: reject(new Error('Unknown error
    (' + error + ')')); } } resolve(result); *)
Definition on_completion (error result : js_value) : Promise :=
  (if truthy error then [reject (UnknownError error)] else [])
  ++ [resolve result].

(** (error, result) => ... resolve(result) *)
Definition with_result (argv : list js_value) : Promise :=
  on_completion (arg 0 argv) (arg 1 argv).

(** (error) => ... resolve() *)
Definition without_result (argv : list js_value) : Promise :=
  on_completion (arg 0 argv) Undefined.

(** The callback of Device.open and Device.close: the case of
    ERROR_OPEN_DEVICE has no break and falls into the default. *)
Definition on_device_completion (argv : list js_value) : Promise :=
  let error := arg 0 argv in
  (if truthy error then
     (match error with
      | Number n =>
          if n =? ERROR_OPEN_DEVICE
          then [reject (Error "LibNFC failed to open the device")]
          else []
      | _ => []
      end) ++ [reject (UnknownError error)]
   else [])
  ++ [resolve Undefined].

(** The completions a completion callback of this file delivers: a value,
    or an Error whose message wraps the error argument as the binding
    method passed it (the callbacks name no member of the taxonomy), or
    the fixed message of a failed open. *)
Definition delivered (s : settle) : Prop :=
  match s with
  | resolve _ => True
  | reject e =>
      (exists error, e = UnknownError error /\ truthy error = true) \/
      e = Error "LibNFC failed to open the device"
  end.

(** buf.length where [buf] is undefined: the property access raises. (The
    wording of the message is the engine's.) *)
Definition no_length : js_error :=
  TypeError "Cannot read property 'length' of undefined".

(** A buffer argument as the binding method receives it: the Buffer, or
    undefined when the caller left the argument out. *)
Definition buffer_argument (buf : option (list Z)) : js_value :=
  match buf with
  | Some bytes => Buffer bytes
  | None => Undefined
  end.

(** *** class Freefare *)

(** The constructor, given what freefare.init() returned: it raises or
    completes. *)
Definition Freefare_constructor (error : Z) : option js_error :=
  if error =? ERROR_INIT_LIBNFC
  then Some (Error "Could not initiate LibNFC")
  else if negb (error =? 0)
  then Some (Error "Unknown error during LibNFC initialization")
  else None.

(** *** class Device *)

Definition Device_open (this : DeviceCpp.Device)
  : M world (DeviceCpp.Device * outcome) :=
  if has_method DeviceCpp.Init_methods "open" then
    r <- DeviceCpp.Device_Open lib this ;;
    ret (fst r, match snd r with
                | Some argv => Returned (on_device_completion argv)
                | None => Faulted
                end)
  else ret (this, not_a_function "open").

Definition Device_close (this : DeviceCpp.Device) : M world outcome :=
  promised DeviceCpp.Init_methods "close"
    (DeviceCpp.Device_Close lib this) on_device_completion.

(** The switch of Device.listTags over cppTag.getTagType(). *)
Definition listTags_class (typeStr : string) : handler_class :=
  if (typeStr =? "MIFARE_CLASSIC_1K")%string then MifareClassicTag
  else if (typeStr =? "MIFARE_CLASSIC_4K")%string then MifareClassicTag
  else if (typeStr =? "MIFARE_DESFIRE")%string then MifareDesfireTag
  else if (typeStr =? "MIFARE_ULTRALIGHT")%string then MifareUltralightTag
  else if (typeStr =? "NTAG_21x")%string then NTag21xTag
  else (* case '', case 'MIFARE_ULTRALIGHT_C', default *) Tag.

(** One turn of the loop: res.push(new Class(cppTag)). *)
Definition listTags_wrap (tag : MifareTag) : js_value :=
  Handler (listTags_class (TagCpp.GetTagType lib tag)) (CppTag tag).

(** for (let cppTag of list) { ... }: [None] when an item is not a wrapped
    tag, on which cppTag.getTagType() raises. *)
Fixpoint listTags_loop (cppTags : list js_value) : option (list js_value) :=
  match cppTags with
  | [] => Some []
  | CppTag tag :: rest =>
      match listTags_loop rest with
      | Some res => Some (listTags_wrap tag :: res)
      | None => None
      end
  | _ :: _ => None
  end.

Definition listTags_callback (argv : list js_value) : outcome :=
  let error := arg 0 argv in
  let rejected := if truthy error then [reject (UnknownError error)]
                  else [] in
  match arg 1 argv with
  | Array cppTags =>
      match listTags_loop cppTags with
      | Some res => Returned (rejected ++ [resolve (Array res)])
      | None =>
          Uncaught rejected (TypeError "cppTag.getTagType is not a function")
      end
  | _ => Uncaught rejected (TypeError "list is not iterable")
  end.

Definition Device_listTags (this : DeviceCpp.Device) : M world outcome :=
  if has_method DeviceCpp.Init_methods "listTags" then
    r <- DeviceCpp.Device_ListTags lib this ;;
    ret match r with
        | Some argv => listTags_callback argv
        | None => Faulted
        end
  else ret (not_a_function "listTags").

Definition Device_abort (this : DeviceCpp.Device) : M world outcome :=
  promised DeviceCpp.Init_methods "abort"
    (DeviceCpp.Device_Abort lib overrun this) without_result.

(** *** class Tag *)

Definition Tag_getType (this : MifareTag) : string :=
  TagCpp.GetTagType lib this.

Definition Tag_getFriendlyName (this : MifareTag) : string :=
  TagCpp.GetTagFriendlyName lib this.

Definition Tag_getUID (this : MifareTag) : string :=
  TagCpp.GetTagUID lib this.

(** The methods an instance of each class has, inherited ones first. *)
Definition Tag_methods : list string :=
  [ "getType"; "getFriendlyName"; "getUID" ]%string.

Definition own_methods (c : handler_class) : list string :=
  match c with
  | Tag => []
  | MifareUltralightTag => [ "open"; "close"; "read"; "write" ]
  | MifareClassicTag =>
      [ "open"; "close"; "authenticate"; "read"; "write"; "initValue";
        "readValue"; "incrementValue"; "decrementValue"; "restoreValue";
        "transferValue" ]
  | MifareDesfireTag =>
      [ "open"; "close"; "authenticateDES"; "authenticate3DES";
        "getApplicationIds"; "selectApplication"; "getFileIds"; "read";
        "write" ]
  | NTag21xTag =>
      [ "open"; "close"; "read"; "fastRead"; "write"; "getSubType" ]
  end%string.

Definition class_methods (c : handler_class) : list string :=
  (Tag_methods ++ own_methods c)%list.

(** *** class MifareUltralightTag *)

Definition MifareUltralightTag_open (this : MifareTag) : M world outcome :=
  promised_absent "mifareUltralight_connect" [] without_result.

Definition MifareUltralightTag_close (this : MifareTag) : M world outcome :=
  promised_absent "mifareUltralight_disconnect" [] without_result.

Definition MifareUltralightTag_read (this : MifareTag) (page : Z)
  : M world outcome :=
  assert (page <? 16) "Mifare Ultralight tag have only 16 pages (0 to 15)"
    (promised_absent "mifareUltralight_read" [Number page]
       with_result).

(** [buf] is the Buffer given, or [None] when write is called with the
    page alone, on which [buf.length] raises in the second line. *)
Definition MifareUltralightTag_write (this : MifareTag) (page : Z)
    (buf : option (list Z)) : M world outcome :=
  assert (page <? 16) "Mifare Ultralight tag have only 16 pages (0 to 15)"
    match buf with
    | Some bytes =>
        assert (Z.of_nat (List.length bytes) =? 4)
          "Length of page on Mifare Ultralight tag is 4 bytes"
          (promised_absent "mifareUltralight_write"
             [Number page; Buffer bytes] without_result)
    | None => ret (Threw no_length)
    end.

(** *** class NTag21xTag *)

Definition NTag21xTag_open (this : MifareTag) : M world outcome :=
  promised TagCpp.Init_methods "ntag21x_connect"
    (TagNtag21x.Tag_ntag21x_connect lib this) without_result.

Definition NTag21xTag_close (this : MifareTag) : M world outcome :=
  promised TagCpp.Init_methods "ntag21x_disconnect"
    (TagNtag21x.Tag_ntag21x_disconnect lib this) without_result.

Definition NTag21xTag_read (this : MifareTag) (page : Z) : M world outcome :=
  promised TagCpp.Init_methods "ntag21x_read4"
    (TagNtag21x.Tag_ntag21x_read4 lib this page) with_result.

Definition NTag21xTag_fastRead (this : MifareTag) (startPage endPage : Z)
  : M world outcome :=
  promised TagCpp.Init_methods "ntag21x_fast_read"
    (TagNtag21x.Tag_ntag21x_fast_read lib this startPage endPage)
    with_result.

Definition NTag21xTag_write (this : MifareTag) (page : Z)
    (buf : option (list Z)) : M world outcome :=
  match buf with
  | Some bytes =>
      assert (Z.of_nat (List.length bytes) =? 4)
        "Length of page on Mifare Ultralight tag is 4 bytes"
        (promised TagCpp.Init_methods "ntag21x_write"
           (TagNtag21x.Tag_ntag21x_write lib beyond this page bytes)
           without_result)
  | None => ret (Threw no_length)
  end.

Definition NTag21xTag_getSubType (this : MifareTag) : M world outcome :=
  promised TagCpp.Init_methods "ntag21x_get_subtype"
    (TagNtag21x.Tag_ntag21x_get_subtype lib this) with_result.

(** *** class MifareClassicTag *)

Definition MifareClassicTag_open (this : MifareTag) : M world outcome :=
  promised_absent "mifareClassic_connect" [] without_result.

Definition MifareClassicTag_close (this : MifareTag) : M world outcome :=
  promised_absent "mifareClassic_disconnect" [] without_result.

Definition MifareClassicTag_authenticate (this : MifareTag)
    (block key keyType : js_value) : M world outcome :=
  promised_absent "mifareClassic_authenticate" [block; key; keyType]
    with_result.

(** read(block, key, keyType) hands only [block] to the binding. *)
Definition MifareClassicTag_read (this : MifareTag)
    (block key keyType : js_value) : M world outcome :=
  promised_absent "mifareClassic_read" [block] with_result.

Definition MifareClassicTag_write (this : MifareTag) (block data : js_value)
  : M world outcome :=
  promised_absent "mifareClassic_write" [block; data] without_result.

Definition MifareClassicTag_initValue (this : MifareTag)
    (block value adr : js_value) : M world outcome :=
  promised_absent "mifareClassic_initValue" [block; value; adr]
    without_result.

(** (error, value, adr) => ... resolve({value, adr}) *)
Definition MifareClassicTag_readValue (this : MifareTag) (block : js_value)
  : M world outcome :=
  promised_absent "mifareClassic_readValue" [block]
    (fun argv =>
       on_completion (arg 0 argv)
         (Object [("value", arg 1 argv); ("adr", arg 2 argv)]%string)).

Definition MifareClassicTag_incrementValue (this : MifareTag)
    (block amount : js_value) : M world outcome :=
  promised_absent "mifareClassic_increment" [block; amount]
    without_result.

Definition MifareClassicTag_decrementValue (this : MifareTag)
    (block amount : js_value) : M world outcome :=
  promised_absent "mifareClassic_decrement" [block; amount]
    without_result.

Definition MifareClassicTag_restoreValue (this : MifareTag)
    (block : js_value) : M world outcome :=
  promised_absent "mifareClassic_restore" [block] without_result.

Definition MifareClassicTag_transferValue (this : MifareTag)
    (block : js_value) : M world outcome :=
  promised_absent "mifareClassic_transfer" [block] without_result.

(** *** class MifareDesfireTag *)

Definition MifareDesfireTag_open (this : MifareTag) : M world outcome :=
  promised_absent "mifareDesfire_connect" [] without_result.

Definition MifareDesfireTag_close (this : MifareTag) : M world outcome :=
  promised_absent "mifareDesfire_disconnect" [] without_result.

Definition MifareDesfireTag_authenticateDES (this : MifareTag)
    (KeyNum key : js_value) : M world outcome :=
  promised_absent "mifareDesfire_authenticate_des" [KeyNum; key]
    without_result.

Definition MifareDesfireTag_authenticate3DES (this : MifareTag)
    (KeyNum key : js_value) : M world outcome :=
  promised_absent "mifareDesfire_authenticate_3des" [KeyNum; key]
    without_result.

Definition MifareDesfireTag_getApplicationIds (this : MifareTag)
  : M world outcome :=
  promised_absent "mifareDesfire_getApplicationIds" [] with_result.

Definition MifareDesfireTag_selectApplication (this : MifareTag)
    (aid : js_value) : M world outcome :=
  promised_absent "mifareDesfire_selectApplication" [aid] with_result.

Definition MifareDesfireTag_getFileIds (this : MifareTag)
  : M world outcome :=
  promised_absent "mifareDesfire_getFileIds" [] with_result.

Definition MifareDesfireTag_read (this : MifareTag)
    (file offset length : js_value) : M world outcome :=
  promised_absent "mifareDesfire_read" [file; offset; length]
    with_result.

Definition MifareDesfireTag_write (this : MifareTag)
    (file offset length data : js_value) : M world outcome :=
  promised_absent "mifareDesfire_write" [file; offset; length; data]
    without_result.

(** *** The caller-facing operations, as one family *)

Inductive operation : Type :=
| Device_open_op (this : DeviceCpp.Device)
| Device_close_op (this : DeviceCpp.Device)
| Device_listTags_op (this : DeviceCpp.Device)
| Device_abort_op (this : DeviceCpp.Device)
| Ultralight_open_op (this : MifareTag)
| Ultralight_close_op (this : MifareTag)
| Ultralight_read_op (this : MifareTag) (page : Z)
| Ultralight_write_op (this : MifareTag) (page : Z) (buf : option (list Z))
| Classic_open_op (this : MifareTag)
| Classic_close_op (this : MifareTag)
| Classic_authenticate_op (this : MifareTag) (block key keyType : js_value)
| Classic_read_op (this : MifareTag) (block key keyType : js_value)
| Classic_write_op (this : MifareTag) (block data : js_value)
| Classic_initValue_op (this : MifareTag) (block value adr : js_value)
| Classic_readValue_op (this : MifareTag) (block : js_value)
| Classic_incrementValue_op (this : MifareTag) (block amount : js_value)
| Classic_decrementValue_op (this : MifareTag) (block amount : js_value)
| Classic_restoreValue_op (this : MifareTag) (block : js_value)
| Classic_transferValue_op (this : MifareTag) (block : js_value)
| Desfire_open_op (this : MifareTag)
| Desfire_close_op (this : MifareTag)
| Desfire_authenticateDES_op (this : MifareTag) (KeyNum key : js_value)
| Desfire_authenticate3DES_op (this : MifareTag) (KeyNum key : js_value)
| Desfire_getApplicationIds_op (this : MifareTag)
| Desfire_selectApplication_op (this : MifareTag) (aid : js_value)
| Desfire_getFileIds_op (this : MifareTag)
| Desfire_read_op (this : MifareTag) (file offset length : js_value)
| Desfire_write_op (this : MifareTag) (file offset length data : js_value)
| NTag21x_open_op (this : MifareTag)
| NTag21x_close_op (this : MifareTag)
| NTag21x_read_op (this : MifareTag) (page : Z)
| NTag21x_fastRead_op (this : MifareTag) (startPage endPage : Z)
| NTag21x_write_op (this : MifareTag) (page : Z) (buf : option (list Z))
| NTag21x_getSubType_op (this : MifareTag).

Definition run (op : operation) : M world outcome :=
  match op with
  | Device_open_op this => r <- Device_open this ;; ret (snd r)
  | Device_close_op this => Device_close this
  | Device_listTags_op this => Device_listTags this
  | Device_abort_op this => Device_abort this
  | Ultralight_open_op this => MifareUltralightTag_open this
  | Ultralight_close_op this => MifareUltralightTag_close this
  | Ultralight_read_op this page => MifareUltralightTag_read this page
  | Ultralight_write_op this page buf =>
      MifareUltralightTag_write this page buf
  | Classic_open_op this => MifareClassicTag_open this
  | Classic_close_op this => MifareClassicTag_close this
  | Classic_authenticate_op this block key keyType =>
      MifareClassicTag_authenticate this block key keyType
  | Classic_read_op this block key keyType =>
      MifareClassicTag_read this block key keyType
  | Classic_write_op this block data => MifareClassicTag_write this block data
  | Classic_initValue_op this block value adr =>
      MifareClassicTag_initValue this block value adr
  | Classic_readValue_op this block => MifareClassicTag_readValue this block
  | Classic_incrementValue_op this block amount =>
      MifareClassicTag_incrementValue this block amount
  | Classic_decrementValue_op this block amount =>
      MifareClassicTag_decrementValue this block amount
  | Classic_restoreValue_op this block =>
      MifareClassicTag_restoreValue this block
  | Classic_transferValue_op this block =>
      MifareClassicTag_transferValue this block
  | Desfire_open_op this => MifareDesfireTag_open this
  | Desfire_close_op this => MifareDesfireTag_close this
  | Desfire_authenticateDES_op this KeyNum key =>
      MifareDesfireTag_authenticateDES this KeyNum key
  | Desfire_authenticate3DES_op this KeyNum key =>
      MifareDesfireTag_authenticate3DES this KeyNum key
  | Desfire_getApplicationIds_op this =>
      MifareDesfireTag_getApplicationIds this
  | Desfire_selectApplication_op this aid =>
      MifareDesfireTag_selectApplication this aid
  | Desfire_getFileIds_op this => MifareDesfireTag_getFileIds this
  | Desfire_read_op this file offset length =>
      MifareDesfireTag_read this file offset length
  | Desfire_write_op this file offset length data =>
      MifareDesfireTag_write this file offset length data
  | NTag21x_open_op this => NTag21xTag_open this
  | NTag21x_close_op this => NTag21xTag_close this
  | NTag21x_read_op this page => NTag21xTag_read this page
  | NTag21x_fastRead_op this startPage endPage =>
      NTag21xTag_fastRead this startPage endPage
  | NTag21x_write_op this page buf => NTag21xTag_write this page buf
  | NTag21x_getSubType_op this => NTag21xTag_getSubType this
  end.

(** The length a buffer argument must have for the assertion on it to
    hold; the assertion cannot hold on an argument left out. *)
Definition four_bytes (buf : option (list Z)) : bool :=
  match buf with
  | Some bytes => Z.of_nat (List.length bytes) =? 4
  | None => false
  end.

(** The assertions an operation makes on its arguments before it builds
    the promise. *)
Definition asserts_hold (op : operation) : bool :=
  match op with
  | Ultralight_read_op _ page => page <? 16
  | Ultralight_write_op _ page buf => (page <? 16) && four_bytes buf
  | NTag21x_write_op _ _ buf => four_bytes buf
  | _ => true
  end.

(** The operations that reach a binding method and are answered through
    the completion callback: those of the device and of the simple paged,
    sector and file handlers whose binding method Device::Init or
    Tag::Init puts on the prototype, enumeration left aside. *)
Definition settles_by_callback (op : operation) : bool :=
  match op with
  | Device_close_op _ | Device_listTags_op _ => false
  | NTag21x_open_op _ | NTag21x_close_op _ | NTag21x_read_op _ _
  | NTag21x_fastRead_op _ _ _ | NTag21x_write_op _ _ _
  | NTag21x_getSubType_op _ => false
  | _ => true
  end.

End Classes.
End Js.

(* ------------------------------------------------------------------ *)
(** ** A simulated reader, to run the embedding on concrete inputs *)

Module Bench.
Import JsValue Native.

(** The hardware state is the number of library calls served so far. *)
Definition world : Type := nat.

(** Three cards in the field: 1 is a MIFARE Ultralight, 2 an NTAG 21x
    (an NTAG 215), 3 a card of a family the code does not name. Every page
    of a card holds its own index in each of its four bytes. *)
Definition tag_type (tag : MifareTag) : mifare_tag_type :=
  if tag =? 1 then ULTRALIGHT
  else if tag =? 2 then NTAG_21x
  else OTHER_FAMILY.

Definition pages (start_page : Z) : memory :=
  fun i => start_page + Z.of_nat (i / 4).

Definition lib : library world := {|
  nfc_open := fun _ w => (7, S w);
  nfc_close := fun _ w => (tt, S w);
  nfc_abort_command := fun _ w => (0, S w);
  freefare_get_tags := fun _ w => (Some [1; 2; 3], S w);
  freefare_get_tag_type := tag_type;
  freefare_get_tag_friendly_name := fun _ => "card"%string;
  freefare_get_tag_uid := fun _ => "04a1b2c3"%string;
  ntag21x_connect := fun _ w => (0, S w);
  ntag21x_get_info := fun _ w => (0, S w);
  ntag21x_disconnect := fun _ w => (0, S w);
  ntag21x_read4 := fun _ page w => ((0, pages page), S w);
  ntag21x_fast_read := fun _ start_page _ w => ((0, pages start_page), S w);
  ntag21x_write := fun _ _ _ w => (0, S w);
  ntag21x_get_subtype := fun _ w => (NTAG_215, S w)
|}.

(** The bindings of the other families call back once, with no error and
    a page of zeroes. *)
Definition absent (name : string) (argv : list js_value) (w : world)
  : option (list (list js_value)) * world :=
  (Some [[Null; Buffer [0; 0; 0; 0]]], S w).

(** What lies behind a Buffer in memory. *)
Definition beyond : memory := fun _ => 170.

Definition start : state world := mkState 0%nat [] [].

Definition reader : DeviceCpp.Device :=
  {| DeviceCpp.connstring := "pn532_uart:/dev/ttyUSB0";
     DeviceCpp.device := 7 |}.

End Bench.

(* ------------------------------------------------------------------ *)
(** ** class Freefare and the constructor of class Device (index.js) *)

Module JsFreefare.
Import JsValue Native.

(** An instance of the JavaScript class Device: this[cppObj] and
    this.name. *)
Record Device : Type := { cppObj : DeviceCpp.Device; name : string }.

(** constructor(cppDevice) *)
Definition Device_constructor (cppDevice : DeviceCpp.Device) : Device :=
  {| cppObj := cppDevice;
     name := DeviceCpp.Device_GetConnstring cppDevice |}.

(** A settle call of the promise of listDevices. *)
Inductive settle_devices : Type :=
| resolve_devices (res : list Device)
| reject_devices (e : js_error).

(** What the callback of Freefare.listDevices comes to: the settle calls
    it makes, and whether the loop raised ([deviceList] is [None] when the
    second argument is not iterable, on which the for-of raises after the
    reject, if any). The binding freefare.listDevices itself is C++ that is
    not among the files of the repository. *)
Definition listDevices_callback (error : js_value)
    (deviceList : option (list DeviceCpp.Device))
  : list settle_devices * option js_error :=
  let rejected :=
    if truthy error
    then [reject_devices (Error "Unknown error during device list")]
    else [] in
  match deviceList with
  | Some cppDevices =>
      (rejected ++ [resolve_devices (map Device_constructor cppDevices)],
       None)
  | None => (rejected, Some (TypeError "deviceList is not iterable"))
  end.

End JsFreefare.

(* ------------------------------------------------------------------ *)
(** ** A reader that fails, for the error paths *)

Module Faulty.
Import JsValue Native.

(** No device can be claimed, the card library hands back a null list,
    and every other call reports the driver's I/O error. *)
Definition lib : library Bench.world := {|
  nfc_open := fun _ w => (0, S w);
  nfc_close := fun _ w => (tt, S w);
  nfc_abort_command := fun _ w => (-1, S w);
  freefare_get_tags := fun _ w => (None, S w);
  freefare_get_tag_type := Bench.tag_type;
  freefare_get_tag_friendly_name := fun _ => "card"%string;
  freefare_get_tag_uid := fun _ => "04a1b2c3"%string;
  ntag21x_connect := fun _ w => (-1, S w);
  ntag21x_get_info := fun _ w => (-1, S w);
  ntag21x_disconnect := fun _ w => (-1, S w);
  ntag21x_read4 := fun _ _ w => ((-1, fun _ => 0), S w);
  ntag21x_fast_read := fun _ _ _ w => ((-1, fun _ => 0), S w);
  ntag21x_write := fun _ _ _ w => (-1, S w);
  ntag21x_get_subtype := fun _ w => (NTAG_UNKNOWN, S w)
|}.

End Faulty.

(* ------------------------------------------------------------------ *)
(** ** Theorems *)

(** *** Error translation (common.h) *)

Section ErrorTranslation.
Import Common.

Lemma taxonomy_code_inj (t u : taxonomy) :
  taxonomy_code t = taxonomy_code u -> t = u.
Proof. destruct t, u; simpl; intros H; try reflexivity; discriminate H. Qed.

Lemma taxonomy_of_code_code (t : taxonomy) :
  taxonomy_of_code (taxonomy_code t) = Some t.
Proof. destruct t; reflexivity. Qed.

Ltac pick_member :=
  first [ now exists IOError | now exists InvalidArgument
        | now exists DeviceNotSupported | now exists NoSuchDevice
        | now exists Overflow | now exists Timeout
        | now exists OperationAborted | now exists NotImplemented
        | now exists TagReleased | now exists RFTransmissionError
        | now exists AuthenticationFailed | now exists SoftError
        | now exists ChipError | now exists Unknown ].

(** The translation always lands on one of the fourteen constants. *)
Lemma LIBNFC_ERROR_TO_NFF_member (nfc : nfc_errors) (error : Z) :
  exists t, taxonomy_code t = LIBNFC_ERROR_TO_NFF nfc error.
Proof.
  unfold LIBNFC_ERROR_TO_NFF.
  repeat match goal with
         | |- context [if ?b then _ else _] => destruct b; [pick_member | ]
         end.
  pick_member.
Qed.

(** A code outside the mapped set falls through every comparison. *)
Lemma LIBNFC_ERROR_TO_NFF_unmapped (nfc : nfc_errors) (error : Z) :
  ~ In error (mapped_codes nfc) ->
  LIBNFC_ERROR_TO_NFF nfc error = NFF_ERROR_LIBNFC_UNKNOWN.
Proof.
  intros Hout. unfold LIBNFC_ERROR_TO_NFF.
  repeat match goal with
         | |- context [if ?a =? ?b then _ else _] =>
             destruct (Z.eqb_spec a b) as [Heq | _];
             [ exfalso; apply Hout; rewrite Heq; unfold mapped_codes;
               simpl; tauto | ]
         end.
  reflexivity.
Qed.

(** C2. The translation of native error codes is a total function into the
    taxonomy: every native code is sent to exactly one of the fourteen
    members, and a code that is none of the thirteen mapped native codes is
    sent to [Unknown]. *)
Theorem LIBNFC_ERROR_TO_NFF_total (nfc : nfc_errors) (error : Z) :
  (exists! t : taxonomy, taxonomy_code t = LIBNFC_ERROR_TO_NFF nfc error) /\
  (~ In error (mapped_codes nfc) ->
   LIBNFC_ERROR_TO_NFF nfc error = taxonomy_code Unknown).
Proof.
  split.
  - destruct (LIBNFC_ERROR_TO_NFF_member nfc error) as [t Ht].
    exists t. split; [exact Ht | ].
    intros u Hu. apply taxonomy_code_inj. congruence.
  - intros Hout. now apply LIBNFC_ERROR_TO_NFF_unmapped.
Qed.

(** C2 on libnfc's numbering: -9 is no mapped code and comes out as
    [Unknown] (100). *)
Lemma LIBNFC_ERROR_TO_NFF_total_witness :
  ~ In (-9) (mapped_codes libnfc_errors) /\
  LIBNFC_ERROR_TO_NFF libnfc_errors (-9) = 100.
Proof.
  assert (Hout : ~ In (-9) (mapped_codes libnfc_errors)).
  { simpl. intros H.
    repeat (destruct H as [H | H]; [discriminate H | ]). exact H. }
  split; [exact Hout | ].
  exact (proj2 (LIBNFC_ERROR_TO_NFF_total libnfc_errors (-9)) Hout).
Defined.

(** The mapped codes of libnfc reach their own members. *)
Example LIBNFC_ERROR_TO_NFF_libnfc :
  map (LIBNFC_ERROR_TO_NFF libnfc_errors) (mapped_codes libnfc_errors)
  = map taxonomy_code
      [ IOError; InvalidArgument; DeviceNotSupported; NoSuchDevice; Overflow;
        Timeout; OperationAborted; NotImplemented; TagReleased;
        RFTransmissionError; AuthenticationFailed; SoftError; ChipError ].
Proof. reflexivity. Qed.

End ErrorTranslation.

(** *** The NTAG 21x workers (tag_ntag21x.cpp) *)

Section Ntag21x.
Import JsValue Native TagNtag21x.
Context {world : Type} (lib : library world).

Lemma CopyBuffer_length (data : memory) (n : Z) :
  0 <= n -> Z.of_nat (List.length (CopyBuffer data n)) = n.
Proof.
  intros Hn. unfold CopyBuffer.
  rewrite length_map, length_seq. now apply Z2Nat.id.
Qed.

Lemma CopyBuffer_4 (data : memory) :
  CopyBuffer data 4 = [data 0%nat; data 1%nat; data 2%nat; data 3%nat].
Proof. reflexivity. Qed.

(** A page index that fits the worker's [uint8_t] passes the two
    conversions of the binding unchanged. *)
Lemma uint8_t_Uint32Value (n : Z) :
  0 <= n < 256 -> uint8_t (Uint32Value n) = n.
Proof.
  intros Hn. unfold uint8_t, Uint32Value.
  rewrite (Z.mod_small n (2 ^ 32)) by lia.
  apply Z.mod_small. lia.
Qed.

Lemma uint8_t_range (n : Z) : 0 <= uint8_t n < 256.
Proof. unfold uint8_t. apply Z.mod_pos_bound. lia. Qed.

(** What Tag::ntag21x_fast_read does, step by step: the call is logged, the
    range is clamped, the library is asked once, and the callback receives
    the error and [length] bytes of the buffer. *)
Lemma Tag_ntag21x_fast_read_run (tag : MifareTag) (info0 info1 : Z)
    (st : state world) :
  Tag_ntag21x_fast_read lib tag info0 info1 st =
  (Some
     [ Number
         (fst (fst (ntag21x_fast_read lib tag (uint8_t (Uint32Value info0))
                      (Z.max (uint8_t (Uint32Value info0))
                             (uint8_t (Uint32Value info1))) (hw st))));
       Buffer
         (CopyBuffer
            (snd (fst (ntag21x_fast_read lib tag (uint8_t (Uint32Value info0))
                         (Z.max (uint8_t (Uint32Value info0))
                                (uint8_t (Uint32Value info1))) (hw st))))
            ((Z.max (uint8_t (Uint32Value info0))
                    (uint8_t (Uint32Value info1))
              - uint8_t (Uint32Value info0) + 1) * 4)) ],
   mkState
     (snd (ntag21x_fast_read lib tag (uint8_t (Uint32Value info0))
             (Z.max (uint8_t (Uint32Value info0))
                    (uint8_t (Uint32Value info1))) (hw st)))
     (submitted st
      ++ [("ntag21x_fast_read"%string, [Number info0; Number info1])])
     (calls st
      ++ [call_ntag21x_fast_read tag (uint8_t (Uint32Value info0))
            (Z.max (uint8_t (Uint32Value info0))
                   (uint8_t (Uint32Value info1)))])).
Proof.
  set (sp := uint8_t (Uint32Value info0)).
  set (ep := uint8_t (Uint32Value info1)).
  unfold Tag_ntag21x_fast_read, AsyncQueueWorker, bind, ret, submit.
  cbn -[Z.mul Z.add Z.sub Z.max Z.gtb uint8_t Uint32Value CopyBuffer].
  unfold ntag21x_fastReadWorker.Execute, ntag21x_fastReadWorker.new,
    ntag21x_fastReadWorker.HandleOKCallback, bind, ret, invoke.
  cbn -[Z.mul Z.add Z.sub Z.max Z.gtb uint8_t Uint32Value CopyBuffer].
  fold sp ep.
  assert (Hclamp : (if sp >? ep then sp else ep) = Z.max sp ep).
  { destruct (Z.gtb_spec sp ep); lia. }
  rewrite Hclamp.
  destruct (ntag21x_fast_read lib tag sp (Z.max sp ep) (hw st))
    as [[e d] w]. reflexivity.
Qed.

(** The length the worker computes never leaves [4 .. 1024]: the C++
    arithmetic on [int] and [size_t] does not wrap. *)
Lemma fastRead_length_bounds (info0 info1 : Z) :
  4 <= (Z.max (uint8_t (Uint32Value info0)) (uint8_t (Uint32Value info1))
        - uint8_t (Uint32Value info0) + 1) * 4 <= 1024.
Proof.
  pose proof (uint8_t_range (Uint32Value info0)).
  pose proof (uint8_t_range (Uint32Value info1)). lia.
Qed.

Lemma Tag_ntag21x_read4_run (tag : MifareTag) (info0 : Z)
    (st : state world) :
  Tag_ntag21x_read4 lib tag info0 st =
  (Some
     [ Number
         (fst (fst (ntag21x_read4 lib tag (uint8_t (Uint32Value info0))
                      (hw st))));
       Buffer
         (CopyBuffer
            (snd (fst (ntag21x_read4 lib tag (uint8_t (Uint32Value info0))
                         (hw st)))) 4) ],
   mkState
     (snd (ntag21x_read4 lib tag (uint8_t (Uint32Value info0)) (hw st)))
     (submitted st ++ [("ntag21x_read4"%string, [Number info0])])
     (calls st
      ++ [call_ntag21x_read4 tag (uint8_t (Uint32Value info0))])).
Proof.
  unfold Tag_ntag21x_read4, AsyncQueueWorker, bind, ret, submit.
  cbn -[uint8_t Uint32Value CopyBuffer].
  unfold ntag21x_readWorker.Execute, ntag21x_readWorker.new,
    ntag21x_readWorker.HandleOKCallback, bind, ret, invoke.
  cbn -[uint8_t Uint32Value CopyBuffer].
  destruct (ntag21x_read4 lib tag (uint8_t (Uint32Value info0)) (hw st))
    as [[e d] w]. reflexivity.
Qed.

Lemma Tag_ntag21x_get_subtype_run (tag : MifareTag) (st : state world) :
  Tag_ntag21x_get_subtype lib tag st =
  (Some
     [ Number 0;
       Number
         match fst (ntag21x_get_subtype lib tag (hw st)) with
         | NTAG_213 => 213
         | NTAG_215 => 215
         | NTAG_216 => 216
         | _ => 0
         end ],
   mkState (snd (ntag21x_get_subtype lib tag (hw st)))
     (submitted st ++ [("ntag21x_get_subtype"%string, [])])
     (calls st ++ [call_ntag21x_get_subtype tag])).
Proof.
  unfold Tag_ntag21x_get_subtype, AsyncQueueWorker, bind, ret, submit.
  cbn.
  unfold ntag21x_getSubTypeWorker.Execute, ntag21x_getSubTypeWorker.new,
    ntag21x_getSubTypeWorker.HandleOKCallback, bind, ret, invoke.
  cbn.
  destruct (ntag21x_get_subtype lib tag (hw st)) as [sub w]. reflexivity.
Qed.

(** C9. For page indices of the worker's range, the buffer the fastRead
    completion delivers has exactly 4 * (max(startPage, endPage') -
    startPage + 1) bytes, where endPage' = max(startPage, endPage): that is
    4 * (endPage - startPage + 1) for an ordered range and 4 for an
    inverted one. It is the buffer the completion handler of the
    JavaScript method resolves with when the error code is 0. *)
Theorem fastRead_buffer_length (tag : MifareTag) (startPage endPage : Z)
    (st : state world) :
  0 <= startPage < 256 ->
  0 <= endPage < 256 ->
  exists (error : Z) (bytes : list Z),
    fst (Tag_ntag21x_fast_read lib tag startPage endPage st)
    = Some [Number error; Buffer bytes] /\
    Z.of_nat (List.length bytes)
    = 4 * (Z.max startPage (Z.max startPage endPage) - startPage + 1) /\
    (startPage <= endPage ->
     Z.of_nat (List.length bytes) = 4 * (endPage - startPage + 1)) /\
    (startPage > endPage -> Z.of_nat (List.length bytes) = 4) /\
    (error = 0 ->
     settled (Js.with_result [Number error; Buffer bytes])
     = Some (resolve (Buffer bytes))).
Proof.
  intros Hs He.
  pose proof (Tag_ntag21x_fast_read_run tag startPage endPage st) as Hrun.
  rewrite (uint8_t_Uint32Value startPage Hs) in Hrun.
  rewrite (uint8_t_Uint32Value endPage He) in Hrun.
  eexists. eexists.
  split; [rewrite Hrun; reflexivity | ].
  rewrite CopyBuffer_length by lia.
  repeat split; try lia.
  intros Hok. rewrite Hok. reflexivity.
Qed.

(** The normalisation, in the binding method Tag::ntag21x_fast_read: on an
    inverted range it behaves as it does on the one-page range of
    [startPage] (same completion, same library call, same hardware state
    afterwards), the one library call it makes is the fast read of
    [startPage .. startPage], the buffer delivered holds the four bytes of
    that page, and the completion handler of the JavaScript method
    resolves the promise with it whenever the library reports no error. *)
Lemma fastRead_inverted_range (tag : MifareTag) (startPage endPage : Z)
    (st : state world) :
  0 <= endPage ->
  endPage < startPage ->
  startPage < 256 ->
  fst (Tag_ntag21x_fast_read lib tag startPage endPage st)
  = fst (Tag_ntag21x_fast_read lib tag startPage startPage st) /\
  hw (snd (Tag_ntag21x_fast_read lib tag startPage endPage st))
  = hw (snd (Tag_ntag21x_fast_read lib tag startPage startPage st)) /\
  calls (snd (Tag_ntag21x_fast_read lib tag startPage endPage st))
  = calls st ++ [call_ntag21x_fast_read tag startPage startPage] /\
  calls (snd (Tag_ntag21x_fast_read lib tag startPage startPage st))
  = calls st ++ [call_ntag21x_fast_read tag startPage startPage] /\
  exists (error : Z) (page : memory),
    fst (ntag21x_fast_read lib tag startPage startPage (hw st))
    = (error, page) /\
    fst (Tag_ntag21x_fast_read lib tag startPage endPage st)
    = Some [ Number error;
             Buffer [page 0%nat; page 1%nat; page 2%nat; page 3%nat] ] /\
    (error = 0 ->
     settled
       (Js.with_result
          [ Number error;
            Buffer [page 0%nat; page 1%nat; page 2%nat; page 3%nat] ])
     = Some (resolve
               (Buffer [page 0%nat; page 1%nat; page 2%nat; page 3%nat]))).
Proof.
  intros He0 Hlt Hs.
  assert (Hsr : 0 <= startPage < 256) by lia.
  assert (Her : 0 <= endPage < 256) by lia.
  pose proof (Tag_ntag21x_fast_read_run tag startPage endPage st) as Hinv.
  pose proof (Tag_ntag21x_fast_read_run tag startPage startPage st) as Hone.
  rewrite (uint8_t_Uint32Value startPage Hsr) in Hinv, Hone.
  rewrite (uint8_t_Uint32Value endPage Her) in Hinv.
  replace (Z.max startPage endPage) with startPage in Hinv by lia.
  replace (Z.max startPage startPage) with startPage in Hone by lia.
  replace ((startPage - startPage + 1) * 4) with 4 in Hinv, Hone by lia.
  rewrite Hinv, Hone.
  destruct (ntag21x_fast_read lib tag startPage startPage (hw st))
    as [[error page] w].
  cbn [fst snd hw calls].
  repeat split.
  exists error, page. repeat split.
  intros Hok. subst error. reflexivity.
Qed.

(** If the card library answers a fast read of the range [p .. p] as it
    answers a read of page [p] (same status, same four bytes), the binding
    method called on an inverted range completes as the one behind
    [read(startPage)] does. *)
Lemma fastRead_inverted_range_as_read (tag : MifareTag)
    (startPage endPage : Z) (st : state world) :
  0 <= endPage ->
  endPage < startPage ->
  startPage < 256 ->
  fst (fst (ntag21x_fast_read lib tag startPage startPage (hw st)))
  = fst (fst (ntag21x_read4 lib tag startPage (hw st))) ->
  (forall i : nat, (i < 4)%nat ->
     snd (fst (ntag21x_fast_read lib tag startPage startPage (hw st))) i
     = snd (fst (ntag21x_read4 lib tag startPage (hw st))) i) ->
  fst (Tag_ntag21x_fast_read lib tag startPage endPage st)
  = fst (Tag_ntag21x_read4 lib tag startPage st).
Proof.
  intros He0 Hlt Hs Herr Hdata.
  assert (Hsr : 0 <= startPage < 256) by lia.
  assert (Her : 0 <= endPage < 256) by lia.
  pose proof (Tag_ntag21x_fast_read_run tag startPage endPage st) as Hinv.
  pose proof (Tag_ntag21x_read4_run tag startPage st) as Hread.
  rewrite (uint8_t_Uint32Value startPage Hsr) in Hinv, Hread.
  rewrite (uint8_t_Uint32Value endPage Her) in Hinv.
  replace (Z.max startPage endPage) with startPage in Hinv by lia.
  replace ((startPage - startPage + 1) * 4) with 4 in Hinv by lia.
  rewrite Hinv, Hread. cbn [fst snd].
  rewrite Herr, !CopyBuffer_4.
  rewrite !Hdata by lia. reflexivity.
Qed.

(** C10. The getSubType completion always carries error code 0 and a
    subtype among 213, 215, 216 and 0, and the subtype is 0 exactly when
    the library's subtype is none of NTAG_213, NTAG_215 and NTAG_216; the
    completion handler of the JavaScript method resolves the promise with
    that number. *)
Theorem getSubType_completion (tag : MifareTag) (st : state world) :
  exists subtype : Z,
    fst (Tag_ntag21x_get_subtype lib tag st)
    = Some [Number 0; Number subtype] /\
    Js.with_result [Number 0; Number subtype] = [resolve (Number subtype)] /\
    In subtype [213; 215; 216; 0] /\
    (subtype = 0 <->
     ~ In (fst (ntag21x_get_subtype lib tag (hw st)))
          [NTAG_213; NTAG_215; NTAG_216]).
Proof.
  pose proof (Tag_ntag21x_get_subtype_run tag st) as Hrun.
  eexists. split; [rewrite Hrun; reflexivity | ].
  split; [reflexivity | ].
  destruct (fst (ntag21x_get_subtype lib tag (hw st)));
    (split; [simpl; auto 6 | ]);
    (split;
     [ first [ discriminate
             | intros _ H; simpl in H;
               repeat (destruct H as [H | H]; [discriminate H | ]);
               exact H ]
     | first [ reflexivity
             | intros H; exfalso; apply H; simpl; auto ] ]).
Qed.

(** Through the prototype that Tag::Init builds, the methods of
    NTag21xTag do not reach these binding methods: the lookup fails and
    the promise is rejected with a TypeError, with no library call. *)
Lemma NTag21xTag_fastRead_not_a_function (tag : MifareTag)
    (startPage endPage : Z) (st : state world) :
  Js.NTag21xTag_fastRead lib tag startPage endPage st
  = (Js.not_a_function "ntag21x_fast_read", st).
Proof. reflexivity. Qed.

(** C5 (on the code). NTag21xTag.fastRead looks [ntag21x_fast_read] up on
    the wrapped object, and Tag::Init puts no method of that name on the
    prototype: on an inverted range, as on any other, the promise is
    rejected with a TypeError and the state is left as it was, so no
    binding method is entered, no library call is made and no page is
    delivered. read(startPage) is rejected likewise, for [ntag21x_read4].
    The normalisation itself is there, out of reach, in the binding method
    Tag::ntag21x_fast_read: on an inverted range of the worker's page
    range it completes as on the single page [startPage]. *)
Theorem NTag21xTag_fastRead_inverted_range_rejected (tag : MifareTag)
    (startPage endPage : Z) (st : state world) :
  endPage < startPage ->
  Js.has_method TagCpp.Init_methods "ntag21x_fast_read" = false /\
  (exists p,
     fst (Js.NTag21xTag_fastRead lib tag startPage endPage st) = Returned p /\
     settled p
     = Some (reject
               (TypeError
                  "this[cppObj].ntag21x_fast_read is not a function"))) /\
  snd (Js.NTag21xTag_fastRead lib tag startPage endPage st) = st /\
  (exists p,
     fst (Js.NTag21xTag_read lib tag startPage st) = Returned p /\
     settled p
     = Some (reject
               (TypeError "this[cppObj].ntag21x_read4 is not a function"))) /\
  (0 <= endPage -> startPage < 256 ->
   fst (Tag_ntag21x_fast_read lib tag startPage endPage st)
   = fst (Tag_ntag21x_fast_read lib tag startPage startPage st) /\
   calls (snd (Tag_ntag21x_fast_read lib tag startPage endPage st))
   = calls st ++ [call_ntag21x_fast_read tag startPage startPage]).
Proof.
  intros Hlt.
  split; [reflexivity | ].
  split; [eexists; split; reflexivity | ].
  split; [reflexivity | ].
  split; [eexists; split; reflexivity | ].
  intros He0 Hs.
  destruct (fastRead_inverted_range tag startPage endPage st He0 Hlt Hs)
    as [Hsame [_ [Hcalls _]]].
  split; assumption.
Qed.

End Ntag21x.

(** C9 on the simulated reader: pages 3 to 5 of card 2 come as 12 bytes. *)
Lemma fastRead_buffer_length_witness :
  exists (error : Z) (bytes : list Z),
    fst (TagNtag21x.Tag_ntag21x_fast_read Bench.lib 2 3 5 Bench.start)
    = Some [JsValue.Number error; JsValue.Buffer bytes] /\
    Z.of_nat (List.length bytes) = 4 * (Z.max 3 (Z.max 3 5) - 3 + 1) /\
    (3 <= 5 -> Z.of_nat (List.length bytes) = 4 * (5 - 3 + 1)) /\
    (3 > 5 -> Z.of_nat (List.length bytes) = 4) /\
    (error = 0 ->
     JsValue.settled
       (Js.with_result [JsValue.Number error; JsValue.Buffer bytes])
     = Some (JsValue.resolve (JsValue.Buffer bytes))).
Proof.
  apply (fastRead_buffer_length Bench.lib 2 3 5 Bench.start); lia.
Defined.

(** On the simulated reader, the binding method on (5, 3) for card 2
    completes as on (5, 5), with the four bytes of page 5. *)
Example fastRead_inverted_range_on_bench :
  fst (TagNtag21x.Tag_ntag21x_fast_read Bench.lib 2 5 3 Bench.start)
  = fst (TagNtag21x.Tag_ntag21x_fast_read Bench.lib 2 5 5 Bench.start) /\
  fst (TagNtag21x.Tag_ntag21x_fast_read Bench.lib 2 5 3 Bench.start)
  = Some [JsValue.Number 0; JsValue.Buffer [5; 5; 5; 5]].
Proof.
  split.
  - apply (fastRead_inverted_range Bench.lib 2 5 3 Bench.start); lia.
  - reflexivity.
Qed.

(** C5 on the simulated reader: fastRead(5, 3) on the handler of card 2 is
    rejected, and the reader is not touched. *)
Lemma NTag21xTag_fastRead_inverted_range_rejected_witness :
  3 < 5 /\
  Js.NTag21xTag_fastRead Bench.lib 2 5 3 Bench.start
  = (JsValue.Returned
       [JsValue.reject
          (JsValue.TypeError
             "this[cppObj].ntag21x_fast_read is not a function")],
     Bench.start).
Proof.
  split; [lia | ].
  destruct (NTag21xTag_fastRead_inverted_range_rejected Bench.lib 2 5 3
              Bench.start ltac:(lia))
    as [_ [_ [Hstate _]]].
  apply injective_projections; [reflexivity | exact Hstate].
Defined.

(** *** Enumeration and dispatch (Device.listTags over Tag::GetTagType) *)

Section Dispatch.
Import JsValue Native.
Context {world : Type} (lib : library world).

(** The loop wraps every tag the binding delivers, one handler per card
    and in the library's order. *)
Lemma listTags_loop_wrapped (tags : list MifareTag) :
  Js.listTags_loop lib (map CppTag tags)
  = Some (map (Js.listTags_wrap lib) tags).
Proof.
  induction tags as [| tag rest IH]; simpl.
  - reflexivity.
  - rewrite IH. reflexivity.
Qed.

(** The callback of Device.listTags on a list of wrapped tags: it raises
    nothing, and resolves with the handlers once it has rejected on a
    truthy error. *)
Lemma listTags_callback_wrapped (error : js_value) (tags : list MifareTag) :
  Js.listTags_callback lib [error; Array (map CppTag tags)]
  = Returned
      ((if truthy error then [reject (UnknownError error)] else [])
       ++ [resolve (Array (map (Js.listTags_wrap lib) tags))]).
Proof.
  unfold Js.listTags_callback, arg. cbn [nth].
  rewrite listTags_loop_wrapped. reflexivity.
Qed.

(** The loop of ListTagsWorker::HandleOKCallback does not get past its
    first turn: the handle Tag::Instantiate returns is used with its scope
    closed. *)
Lemma instantiate_all_first_turn (tag : MifareTag) (rest : list MifareTag)
    (constructorTag : MifareTag) :
  ListTagsWorker.instantiate_all (tag :: rest) constructorTag = (None, 0).
Proof. reflexivity. Qed.

Lemma ListTagsWorker_HandleOKCallback_run (device : nfc_device)
    (found : option (list MifareTag)) :
  ListTagsWorker.HandleOKCallback
    {| ListTagsWorker.deviceabc := device; ListTagsWorker.tags := found |}
  = match found with
    | Some [] => Some [Null; Array []]
    | Some (_ :: _) => None
    | None => None
    end.
Proof. destruct found as [[| tag rest] | ]; reflexivity. Qed.

Lemma Device_listTags_run (this : DeviceCpp.Device) (st : state world) :
  Js.Device_listTags lib this st =
  (match fst (freefare_get_tags lib (DeviceCpp.device this) (hw st)) with
   | Some [] => Returned [resolve (Array [])]
   | Some (_ :: _) => Faulted
   | None => Faulted
   end,
   mkState (snd (freefare_get_tags lib (DeviceCpp.device this) (hw st)))
     (submitted st ++ [("listTags"%string, [])])
     (calls st ++ [call_freefare_get_tags (DeviceCpp.device this)])).
Proof.
  unfold Js.Device_listTags, DeviceCpp.Device_ListTags, AsyncQueueWorker,
    bind, ret, submit.
  cbn.
  unfold ListTagsWorker.Execute, ListTagsWorker.new, bind, ret, invoke.
  cbn.
  destruct (freefare_get_tags lib (DeviceCpp.device this) (hw st))
    as [found w]; cbn.
  rewrite ListTagsWorker_HandleOKCallback_run.
  destruct found as [[| tag rest] | ]; reflexivity.
Qed.

(** The rows of the dispatch table that the two layers agree on. *)
Lemma listTags_wrap_table (tag : MifareTag) :
  Js.listTags_wrap lib tag =
  Handler
    match freefare_get_tag_type lib tag with
    | CLASSIC_1K | CLASSIC_4K => MifareClassicTag
    | DESFIRE => MifareDesfireTag
    | ULTRALIGHT => MifareUltralightTag
    | ULTRALIGHT_C | NTAG_21x | OTHER_FAMILY => Tag
    end
    (CppTag tag).
Proof.
  unfold Js.listTags_wrap, TagCpp.GetTagType.
  destruct (freefare_get_tag_type lib tag); reflexivity.
Qed.

(** Tag::GetTagType produces none of the strings but these six, so the
    case 'NTAG_21x' of the JavaScript switch is never taken. *)
Lemma GetTagType_range (tag : MifareTag) :
  In (TagCpp.GetTagType lib tag)
     [ "MIFARE_CLASSIC_1K"; "MIFARE_CLASSIC_4K"; "MIFARE_DESFIRE";
       "MIFARE_ULTRALIGHT"; "MIFARE_ULTRALIGHT_C"; "Unknown" ]%string.
Proof.
  unfold TagCpp.GetTagType.
  destruct (freefare_get_tag_type lib tag); simpl; auto 7.
Qed.

Lemma listTags_wrap_never_NTag21xTag (tag : MifareTag) :
  Js.listTags_wrap lib tag <> Handler NTag21xTag (CppTag tag).
Proof.
  rewrite listTags_wrap_table.
  destruct (freefare_get_tag_type lib tag); discriminate.
Qed.

(** C3 (the extended-memory row, on the code). The JavaScript switch does
    send the string 'NTAG_21x' to the extended paged handler, but
    Tag::GetTagType names a card of family NTAG_21x "Unknown", so
    enumeration binds such a card to the generic handler. *)
Theorem listTags_NTAG_21x_bound_to_generic (tag : MifareTag) :
  freefare_get_tag_type lib tag = NTAG_21x ->
  Js.listTags_class "NTAG_21x" = NTag21xTag /\
  TagCpp.GetTagType lib tag = "Unknown"%string /\
  Js.listTags_wrap lib tag = Handler Tag (CppTag tag).
Proof.
  intros Hfamily. split; [reflexivity | ].
  unfold Js.listTags_wrap, TagCpp.GetTagType. rewrite Hfamily.
  split; reflexivity.
Qed.

(** The switch on an arbitrary type string: anything but the five handled
    strings, the empty string included, selects the generic class. *)
Lemma listTags_class_default (typeStr : string) :
  typeStr <> "MIFARE_CLASSIC_1K"%string ->
  typeStr <> "MIFARE_CLASSIC_4K"%string ->
  typeStr <> "MIFARE_DESFIRE"%string ->
  typeStr <> "MIFARE_ULTRALIGHT"%string ->
  typeStr <> "NTAG_21x"%string ->
  Js.listTags_class typeStr = Tag.
Proof.
  intros H1 H2 H3 H4 H5. unfold Js.listTags_class.
  repeat match goal with
         | |- context [String.eqb ?a ?b] =>
             destruct (String.eqb_spec a b); [contradiction | ]
         end.
  reflexivity.
Qed.

(** C4 (on the code). The switch of Device.listTags does send a card
    whose type string is none of the handled ones, the empty string
    included, to the generic class [Tag], whose instances have the three
    methods getType, getFriendlyName and getUID and no other, and the
    callback raises on no list of wrapped tags. But the list does not
    arrive: ListTagsWorker::HandleOKCallback uses the handle that
    Tag::Instantiate returned after the HandleScope it was created in has
    closed. With such a card among those the card library reports, as with
    any card, the enumeration ends without a completion. *)
Theorem listTags_unrecognized_card_no_completion (this : DeviceCpp.Device)
    (st : state world) (tags : list MifareTag) (tag : MifareTag) :
  fst (freefare_get_tags lib (DeviceCpp.device this) (hw st)) = Some tags ->
  In tag tags ->
  TagCpp.GetTagType lib tag <> "MIFARE_CLASSIC_1K"%string ->
  TagCpp.GetTagType lib tag <> "MIFARE_CLASSIC_4K"%string ->
  TagCpp.GetTagType lib tag <> "MIFARE_DESFIRE"%string ->
  TagCpp.GetTagType lib tag <> "MIFARE_ULTRALIGHT"%string ->
  TagCpp.GetTagType lib tag <> "NTAG_21x"%string ->
  fst (Js.Device_listTags lib this st) = Faulted /\
  ListTagsWorker.HandleOKCallback
    {| ListTagsWorker.deviceabc := DeviceCpp.device this;
       ListTagsWorker.tags := Some tags |} = None /\
  Js.listTags_callback lib [Null; Array (map CppTag tags)]
  = Returned [resolve (Array (map (Js.listTags_wrap lib) tags))] /\
  Js.listTags_wrap lib tag = Handler Tag (CppTag tag) /\
  Js.listTags_class "" = Tag /\
  Js.class_methods Tag = [ "getType"; "getFriendlyName"; "getUID" ]%string.
Proof.
  intros Hfound Hin H1 H2 H3 H4 H5.
  destruct tags as [| first rest]; [contradiction | ].
  split; [rewrite Device_listTags_run; cbn [fst]; now rewrite Hfound | ].
  split; [apply ListTagsWorker_HandleOKCallback_run | ].
  split; [apply (listTags_callback_wrapped Null) | ].
  split; [ | split; reflexivity].
  unfold Js.listTags_wrap. now rewrite listTags_class_default.
Qed.

End Dispatch.

(** C3 on the simulated reader: card 2, an NTAG 21x, gets the generic
    class. *)
Lemma listTags_NTAG_21x_bound_to_generic_witness :
  Native.freefare_get_tag_type Bench.lib 2 = Native.NTAG_21x /\
  Js.listTags_wrap Bench.lib 2 = JsValue.Handler JsValue.Tag (JsValue.CppTag 2).
Proof.
  split; [reflexivity | ].
  apply (listTags_NTAG_21x_bound_to_generic Bench.lib 2). reflexivity.
Defined.

(** C4 on the simulated reader: with card 3, of a family the code does not
    name, in the field, the enumeration delivers no completion, while the
    switch has the generic class for that card. *)
Lemma listTags_unrecognized_card_no_completion_witness :
  fst (Js.Device_listTags Bench.lib Bench.reader Bench.start)
  = JsValue.Faulted /\
  Js.listTags_wrap Bench.lib 3 = JsValue.Handler JsValue.Tag (JsValue.CppTag 3).
Proof.
  destruct (listTags_unrecognized_card_no_completion Bench.lib Bench.reader
              Bench.start [1; 2; 3] 3)
    as [Hfault [_ [_ [Hwrap _]]]];
    [ reflexivity | simpl; auto | discriminate | discriminate | discriminate
    | discriminate | discriminate | ].
  split; [exact Hfault | exact Hwrap].
Defined.

(** *** Closing a device (Device::Close, CloseWorker, Device.close) *)

Section Close.
Import JsValue Native.
Context {world : Type} (lib : library world).

Lemma Device_Close_run (obj : DeviceCpp.Device) (st : state world) :
  DeviceCpp.Device_Close lib obj st =
  (Some [Null],
   mkState (snd (nfc_close lib (DeviceCpp.device obj) (hw st)))
     (submitted st ++ [("close"%string, [])])
     (calls st ++ [call_nfc_close (DeviceCpp.device obj)])).
Proof.
  unfold DeviceCpp.Device_Close, AsyncQueueWorker, bind, ret, submit.
  cbn.
  unfold CloseWorker.Execute, CloseWorker.new, CloseWorker.HandleOKCallback,
    bind, ret, invoke.
  cbn.
  destruct (nfc_close lib (DeviceCpp.device obj) (hw st)) as [[] w].
  reflexivity.
Qed.

(** Device::Close keeps no record of the connection being open or closed:
    from any state it completes with a null error, which the completion
    handler of Device.close answers by resolving the promise, and it calls
    the driver's nfc_close on the stored device pointer; a second close
    right after the first completes the same way and calls nfc_close on
    the same pointer once more. *)
Lemma Device_Close_repeats_native_close (obj : DeviceCpp.Device)
    (st : state world) :
  fst (DeviceCpp.Device_Close lib obj st) = Some [Null] /\
  Js.on_device_completion [Null] = [resolve Undefined] /\
  calls (snd (DeviceCpp.Device_Close lib obj st))
  = calls st ++ [call_nfc_close (DeviceCpp.device obj)] /\
  fst (DeviceCpp.Device_Close lib obj
         (snd (DeviceCpp.Device_Close lib obj st))) = Some [Null] /\
  calls (snd (DeviceCpp.Device_Close lib obj
                (snd (DeviceCpp.Device_Close lib obj st))))
  = calls st ++ [ call_nfc_close (DeviceCpp.device obj);
                  call_nfc_close (DeviceCpp.device obj) ].
Proof.
  rewrite !Device_Close_run. cbn [fst snd calls hw submitted].
  rewrite <- app_assoc. repeat split.
Qed.

(** Through the prototype that Device::Init builds, Device.close does not
    reach Device::Close: the lookup of [close] fails and the promise is
    rejected with a TypeError, with no library call. *)
Lemma Device_close_not_a_function (obj : DeviceCpp.Device)
    (st : state world) :
  Js.Device_close lib obj st = (Js.not_a_function "close", st).
Proof. reflexivity. Qed.

Lemma Device_open_state (this : DeviceCpp.Device) (st : state world) :
  calls (snd (Js.Device_open lib this st))
  = calls st ++ [call_nfc_open (DeviceCpp.connstring this)].
Proof.
  unfold Js.Device_open.
  change (Js.has_method DeviceCpp.Init_methods "open") with true.
  unfold DeviceCpp.Device_Open, bind, ret, submit. cbn.
  unfold OpenWorker.Execute, OpenWorker.new, bind, ret, invoke. cbn.
  destruct (nfc_open lib (DeviceCpp.connstring this) (hw st)) as [d w].
  reflexivity.
Qed.

(** C7 (on the code). Device.close looks [close] up on the wrapped
    object, and Device::Init puts open, listTags, getConnstring and abort
    on the prototype but no [close]. So, for every device and state, a
    close does not report success: its promise is rejected with a
    TypeError; it leaves the state as it was, and after an open the only
    driver call made is still the nfc_open, so the connection is not
    released; and a second close is rejected as the first is. Device::Close
    and its CloseWorker are defined, out of reach: entered, Device::Close
    calls nfc_close on the stored pointer and completes with a null
    error. *)
Theorem Device_close_rejected (this : DeviceCpp.Device) (st : state world) :
  Js.has_method DeviceCpp.Init_methods "close" = false /\
  (exists p,
     fst (Js.Device_close lib this st) = Returned p /\
     settled p
     = Some (reject (TypeError "this[cppObj].close is not a function")) /\
     forall v, settled p <> Some (resolve v)) /\
  snd (Js.Device_close lib this st) = st /\
  calls
    (snd (Js.Device_close lib (fst (fst (Js.Device_open lib this st)))
            (snd (Js.Device_open lib this st))))
  = calls st ++ [call_nfc_open (DeviceCpp.connstring this)] /\
  Js.Device_close lib this (snd (Js.Device_close lib this st))
  = Js.Device_close lib this st /\
  fst (DeviceCpp.Device_Close lib this st) = Some [Null] /\
  calls (snd (DeviceCpp.Device_Close lib this st))
  = calls st ++ [call_nfc_close (DeviceCpp.device this)].
Proof.
  split; [reflexivity | ].
  split.
  { eexists. split; [reflexivity | ]. split; [reflexivity | ].
    intros v H. discriminate H. }
  split; [reflexivity | ].
  split.
  { rewrite Device_close_not_a_function. cbn [snd]. apply Device_open_state. }
  split; [reflexivity | ].
  rewrite Device_Close_run. split; reflexivity.
Qed.

End Close.

(** On the simulated reader, Device::Close entered twice makes a second
    nfc_close call on the device that the first has closed. *)
Example Device_Close_twice_is_not_Close :
  Native.calls
    (snd (DeviceCpp.Device_Close Bench.lib Bench.reader
            (snd (DeviceCpp.Device_Close Bench.lib Bench.reader
                    Bench.start))))
  = [Native.call_nfc_close 7; Native.call_nfc_close 7] /\
  Native.calls
    (snd (DeviceCpp.Device_Close Bench.lib Bench.reader
            (snd (DeviceCpp.Device_Close Bench.lib Bench.reader
                    Bench.start))))
  <> Native.calls
       (snd (DeviceCpp.Device_Close Bench.lib Bench.reader Bench.start)).
Proof. split; [reflexivity | discriminate]. Qed.

(** On the simulated reader, open and then close: the close is rejected
    and the driver has only been asked to open. *)
Example Device_open_then_close_on_bench :
  fst (Js.Device_close Bench.lib Bench.reader
         (snd (Js.Device_open Bench.lib Bench.reader Bench.start)))
  = JsValue.Returned
      [JsValue.reject
         (JsValue.TypeError "this[cppObj].close is not a function")] /\
  Native.calls
    (snd (Js.Device_close Bench.lib Bench.reader
            (snd (Js.Device_open Bench.lib Bench.reader Bench.start))))
  = [Native.call_nfc_open "pn532_uart:/dev/ttyUSB0"].
Proof. split; reflexivity. Qed.

(** Device::Init puts open, listTags, getConnstring and abort on the
    prototype; the method Device.close of index.js looks up [close]. *)
Example Device_Init_registers_no_close :
  ~ In "close"%string DeviceCpp.Init_methods /\
  In "open"%string DeviceCpp.Init_methods.
Proof.
  split; [ | simpl; auto].
  intros H. simpl in H.
  repeat (destruct H as [H | H]; [discriminate H | ]). exact H.
Qed.

(** Tag::Init puts none of the methods of tag_ntag21x.cpp on the
    prototype. *)
Example Tag_Init_registers_no_ntag21x :
  forallb (fun name => negb (existsb (String.eqb name) TagCpp.Init_methods))
    [ "ntag21x_connect"; "ntag21x_disconnect"; "ntag21x_read4";
      "ntag21x_fast_read"; "ntag21x_write"; "ntag21x_get_subtype" ]%string
  = true.
Proof. reflexivity. Qed.

(** *** The page guard of the simple paged handler (MifareUltralightTag) *)

Section Ultralight.
Import JsValue Native.
Context {world : Type}.
Context (absent : string -> list js_value -> world ->
                  option (list (list js_value)) * world).

(** A method whose binding method is registered enters it, and is answered
    as the binding method answers. *)
Lemma promised_absent_run (name : string) (argv : list js_value)
    (callback : list js_value -> Promise) (st : state world) :
  Js.has_method TagCpp.Init_methods name = true ->
  Js.promised_absent absent name argv callback st =
  (Js.answered callback (fst (absent name argv (hw st))),
   mkState (snd (absent name argv (hw st)))
     (submitted st ++ [(name, argv)]) (calls st)).
Proof.
  intros Hregistered. unfold Js.promised_absent. rewrite Hregistered.
  unfold Js.call_absent, bind, ret, submit. cbn.
  destruct (absent name argv (hw st)). reflexivity.
Qed.

(** Below 16 the guard lets every page through, negative ones included:
    the binding method is entered with the page as given. *)
Lemma MifareUltralightTag_read_submits (this : MifareTag) (page : Z)
    (st : state world) :
  page < 16 ->
  Js.MifareUltralightTag_read absent this page st =
  (Js.answered Js.with_result
     (fst (absent "mifareUltralight_read"%string [Number page] (hw st))),
   mkState
     (snd (absent "mifareUltralight_read"%string [Number page] (hw st)))
     (submitted st ++ [("mifareUltralight_read"%string, [Number page])])
     (calls st)).
Proof.
  intros Hpage. unfold Js.MifareUltralightTag_read, Js.assert.
  destruct (Z.ltb_spec page 16) as [_ | Hge]; [ | lia].
  now rewrite promised_absent_run.
Qed.

(** C8, as the code has it. For every page index from 16 upwards, read and
    write stop at the assertion on the page, whatever the buffer, given or
    not: an AssertionError is raised before any promise is built, so there
    is no completion, and the state is untouched, so no binding method is
    entered and no library call is made. *)
Theorem MifareUltralightTag_page_guard (this : MifareTag) (page : Z)
    (buf : option (list Z)) (st : state world) :
  16 <= page ->
  Js.MifareUltralightTag_read absent this page st
  = (Threw (AssertionError
              "Mifare Ultralight tag have only 16 pages (0 to 15)"), st) /\
  Js.MifareUltralightTag_write absent this page buf st
  = (Threw (AssertionError
              "Mifare Ultralight tag have only 16 pages (0 to 15)"), st) /\
  submitted (snd (Js.MifareUltralightTag_read absent this page st))
  = submitted st /\
  calls (snd (Js.MifareUltralightTag_read absent this page st)) = calls st /\
  submitted (snd (Js.MifareUltralightTag_write absent this page buf st))
  = submitted st /\
  calls (snd (Js.MifareUltralightTag_write absent this page buf st))
  = calls st.
Proof.
  intros Hpage.
  unfold Js.MifareUltralightTag_read, Js.MifareUltralightTag_write, Js.assert.
  destruct (Z.ltb_spec page 16) as [Hlt | _]; [lia | ].
  repeat split.
Qed.

End Ultralight.

(** C8 on the simulated reader: read(16) raises and leaves the state as it
    was. *)
Lemma MifareUltralightTag_page_guard_witness :
  16 <= 16 /\
  Js.MifareUltralightTag_read Bench.absent 1 16 Bench.start
  = (JsValue.Threw
       (JsValue.AssertionError
          "Mifare Ultralight tag have only 16 pages (0 to 15)"),
     Bench.start).
Proof.
  split; [lia | ].
  apply (MifareUltralightTag_page_guard Bench.absent 1 16 None Bench.start).
  lia.
Defined.

(** C8, as stated, fails: write(16, data) with four bytes of data ends in
    no completion, with the InvalidArgument error or with any other; it is
    an AssertionError that leaves the method, and that is not the Error
    which wraps NFF_ERROR_LIBNFC_EINVARG. *)
Lemma MifareUltralightTag_write_page_16_raises :
  fst (Js.MifareUltralightTag_write Bench.absent 1 16 (Some [0; 0; 0; 0])
         Bench.start)
  = JsValue.Threw
      (JsValue.AssertionError
         "Mifare Ultralight tag have only 16 pages (0 to 15)") /\
  (forall p : JsValue.Promise,
     fst (Js.MifareUltralightTag_write Bench.absent 1 16 (Some [0; 0; 0; 0])
            Bench.start)
     <> JsValue.Returned p) /\
  JsValue.AssertionError "Mifare Ultralight tag have only 16 pages (0 to 15)"
  <> JsValue.UnknownError (JsValue.Number Common.NFF_ERROR_LIBNFC_EINVARG).
Proof.
  split; [reflexivity | ].
  split; [intros p H; discriminate H | discriminate].
Qed.

(** The assertion has no lower bound: read(-1) raises nothing and enters
    the binding method with that page. *)
Example MifareUltralightTag_read_negative_page :
  fst (Js.MifareUltralightTag_read Bench.absent 1 (-1) Bench.start)
  = JsValue.Returned [JsValue.resolve (JsValue.Buffer [0; 0; 0; 0])] /\
  Native.submitted
    (snd (Js.MifareUltralightTag_read Bench.absent 1 (-1) Bench.start))
  = [("mifareUltralight_read"%string, [JsValue.Number (-1)])].
Proof. split; reflexivity. Qed.

(** *** Completions of the caller-facing operations *)

Section Operations.
Import JsValue Native.
Context {world : Type} (lib : library world) (overrun : js_value)
  (beyond : memory).
Context (absent : string -> list js_value -> world ->
                  option (list (list js_value)) * world).

Lemma on_completion_once (error result : js_value) :
  exists s, completions (Js.on_completion error result) = [s] /\ Js.delivered s.
Proof.
  unfold Js.on_completion.
  destruct (truthy error) eqn:Herror; cbn.
  - eexists. split; [reflexivity | ]. left. now exists error.
  - eexists. split; [reflexivity | exact I].
Qed.

Lemma on_device_completion_once (argv : list js_value) :
  exists s, completions (Js.on_device_completion argv) = [s] /\ Js.delivered s.
Proof.
  unfold Js.on_device_completion.
  destruct (truthy (arg 0 argv)) eqn:Herror; cbn.
  - destruct (arg 0 argv) as [ | | n | | | | | | ] eqn:Harg; cbn;
      try (eexists; split; [reflexivity | ]; left; eexists; split;
           [reflexivity | exact Herror]).
    destruct (n =? Js.ERROR_OPEN_DEVICE); cbn.
    + eexists. split; [reflexivity | ]. right. reflexivity.
    + eexists. split; [reflexivity | ]. left. eexists. split;
        [reflexivity | exact Herror].
  - eexists. split; [reflexivity | exact I].
Qed.

(** However often the callback is called, the promise has the completion
    of the first call, and none when it is never called. *)
Lemma called_back_completions (callback : list js_value -> Promise)
    (invocations : list (list js_value)) :
  (forall argv,
     exists s, completions (callback argv) = [s] /\ Js.delivered s) ->
  (invocations = [] /\
   completions (Js.called_back callback invocations) = []) \/
  (invocations <> [] /\
   exists s,
     completions (Js.called_back callback invocations) = [s] /\
     Js.delivered s).
Proof.
  intros Honce. destruct invocations as [| argv rest].
  - left. split; reflexivity.
  - right. split; [discriminate | ].
    destruct (Honce argv) as [s [Hfirst Hdelivered]].
    exists s. split; [ | exact Hdelivered].
    unfold Js.called_back. cbn [map List.concat].
    unfold completions in *.
    destruct (callback argv) as [| s' p]; [discriminate Hfirst | ].
    cbn in *. exact Hfirst.
Qed.

Lemma Device_open_run (this : DeviceCpp.Device) (st : state world) :
  Js.Device_open lib this st =
  (({| DeviceCpp.connstring := DeviceCpp.connstring this;
       DeviceCpp.device :=
         fst (nfc_open lib (DeviceCpp.connstring this) (hw st)) |},
    Returned
      (Js.on_device_completion
         [ if fst (nfc_open lib (DeviceCpp.connstring this) (hw st)) =? 0
           then Number Common.NFF_ERROR_OPEN_DEVICE else Null ])),
   mkState (snd (nfc_open lib (DeviceCpp.connstring this) (hw st)))
     (submitted st ++ [("open"%string, [])])
     (calls st ++ [call_nfc_open (DeviceCpp.connstring this)])).
Proof.
  unfold Js.Device_open.
  change (Js.has_method DeviceCpp.Init_methods "open") with true.
  unfold DeviceCpp.Device_Open, bind, ret, submit. cbn -[Z.eqb].
  unfold OpenWorker.Execute, OpenWorker.new, OpenWorker.HandleOKCallback,
    bind, ret, invoke.
  cbn -[Z.eqb].
  destruct (nfc_open lib (DeviceCpp.connstring this) (hw st)) as [d w].
  reflexivity.
Qed.

Lemma Device_abort_run (this : DeviceCpp.Device) (st : state world) :
  Js.Device_abort lib overrun this st =
  (Returned
     (Js.on_completion
        (Number (fst (nfc_abort_command lib (DeviceCpp.device this) (hw st))))
        Undefined),
   mkState (snd (nfc_abort_command lib (DeviceCpp.device this) (hw st)))
     (submitted st ++ [("abort"%string, [])])
     (calls st ++ [call_nfc_abort_command (DeviceCpp.device this)])).
Proof.
  unfold Js.Device_abort, Js.promised.
  change (Js.has_method DeviceCpp.Init_methods "abort") with true.
  unfold DeviceCpp.Device_Abort, AsyncQueueWorker, bind, ret, submit.
  cbn -[Js.on_completion].
  unfold AbortWorker.Execute, AbortWorker.new, AbortWorker.HandleOKCallback,
    bind, ret, invoke.
  cbn -[Js.on_completion].
  destruct (nfc_abort_command lib (DeviceCpp.device this) (hw st)) as [e w].
  reflexivity.
Qed.

Create HintDb js_methods.

#[local] Hint Unfold
  Js.MifareUltralightTag_open Js.MifareUltralightTag_close
  Js.MifareUltralightTag_read Js.MifareUltralightTag_write
  Js.MifareClassicTag_open Js.MifareClassicTag_close
  Js.MifareClassicTag_authenticate Js.MifareClassicTag_read
  Js.MifareClassicTag_write Js.MifareClassicTag_initValue
  Js.MifareClassicTag_readValue Js.MifareClassicTag_incrementValue
  Js.MifareClassicTag_decrementValue Js.MifareClassicTag_restoreValue
  Js.MifareClassicTag_transferValue
  Js.MifareDesfireTag_open Js.MifareDesfireTag_close
  Js.MifareDesfireTag_authenticateDES Js.MifareDesfireTag_authenticate3DES
  Js.MifareDesfireTag_getApplicationIds Js.MifareDesfireTag_selectApplication
  Js.MifareDesfireTag_getFileIds Js.MifareDesfireTag_read
  Js.MifareDesfireTag_write
  : js_methods.

(** The three shapes of completion callback settle once per call. *)
Ltac callback_once :=
  let argv := fresh "argv" in
  intros argv;
  first [ apply on_completion_once
        | unfold Js.with_result; apply on_completion_once
        | unfold Js.without_result; apply on_completion_once ].

(** An operation that has reached [promised_absent]: it is answered as the
    binding method answers. *)
Ltac answered_by_binding :=
  rewrite promised_absent_run by reflexivity;
  cbn [fst snd submitted];
  match goal with
  | |- context [Js.answered ?callback (fst (absent ?name ?argv (hw ?st)))] =>
      let invocations := fresh "invocations" in
      let Hanswer := fresh "Hanswer" in
      destruct (fst (absent name argv (hw st)))
        as [invocations | ] eqn:Hanswer;
      cbn [Js.answered];
      [ split; [reflexivity | ];
        let Hnever := fresh "Hnever" in
        let Hnone := fresh "Hnone" in
        let Hone := fresh "Hone" in
        destruct (called_back_completions callback invocations
                    ltac:(callback_once))
          as [[Hnever Hnone] | [_ Hone]];
        [ right; split; [exact Hnone | ];
          exists name, argv; split; [reflexivity | ];
          rewrite Hanswer, Hnever; reflexivity
        | left; exact Hone ]
      | split; [reflexivity | ];
        exists name, argv; split; [reflexivity | exact Hanswer] ]
  end.

(** C6, as the code has it. The constructor of Freefare is synchronous: it
    raises an Error when the initialisation of the driver reports an
    error, and only then. An operation that is answered through its
    completion callback and whose argument assertions hold returns a
    promise; the promise has exactly one completion, a value or an Error
    that wraps the error argument of the callback or carries the fixed
    message of a failed open, unless the binding method entered never
    calls back, in which case it has none; and no exception is raised
    inside the completion callback. When an assertion fails, or write is
    called without its buffer, the operation raises instead, an
    AssertionError or a TypeError, builds no promise and leaves the state
    untouched. The run ends with neither only when the binding method
    entered, one of those whose source is absent, faults. *)
Theorem operation_completes_once_or_raises :
  (forall error : Z,
     (Js.Freefare_constructor error = None <-> error = 0) /\
     (forall e : js_error,
        Js.Freefare_constructor error = Some e ->
        exists message, e = Error message)) /\
  (forall (op : Js.operation) (st : state world),
     Js.settles_by_callback op = true ->
     match fst (Js.run lib overrun beyond absent op st) with
     | Threw e =>
         Js.asserts_hold op = false /\
         ((exists message, e = AssertionError message) \/
          e = Js.no_length) /\
         snd (Js.run lib overrun beyond absent op st) = st
     | Returned p =>
         Js.asserts_hold op = true /\
         ((exists s, completions p = [s] /\ Js.delivered s) \/
          (completions p = [] /\
           exists (name : string) (argv : list js_value),
             submitted (snd (Js.run lib overrun beyond absent op st))
             = submitted st ++ [(name, argv)] /\
             fst (absent name argv (hw st)) = Some []))
     | Uncaught _ _ => False
     | Faulted =>
         Js.asserts_hold op = true /\
         exists (name : string) (argv : list js_value),
           submitted (snd (Js.run lib overrun beyond absent op st))
           = submitted st ++ [(name, argv)] /\
           fst (absent name argv (hw st)) = None
     end).
Proof.
  split.
  { intros error. unfold Js.Freefare_constructor, Js.ERROR_INIT_LIBNFC.
    destruct (Z.eqb_spec error 10) as [H10 | H10].
    - split; [split; [discriminate | lia] | ].
      intros e He. injection He as <-. eexists. reflexivity.
    - destruct (Z.eqb_spec error 0) as [H0 | H0]; cbn.
      + split; [tauto | discriminate].
      + split; [split; [discriminate | contradiction] | ].
        intros e He. injection He as <-. eexists. reflexivity. }
  intros op st Hcallback.
  destruct op; try discriminate Hcallback; clear Hcallback;
    cbn [Js.run Js.asserts_hold].
  - (* Device.open *)
    unfold bind, ret. rewrite Device_open_run. cbn [fst snd].
    split; [reflexivity | ]. left. apply on_device_completion_once.
  - (* Device.abort *)
    rewrite Device_abort_run. cbn [fst snd].
    split; [reflexivity | ]. left. apply on_completion_once.
  - autounfold with js_methods. answered_by_binding.
  - autounfold with js_methods. answered_by_binding.
  - (* MifareUltralightTag.read *)
    autounfold with js_methods. unfold Js.assert.
    destruct (page <? 16).
    + answered_by_binding.
    + cbn. split; [reflexivity | ]. split; [ | reflexivity].
      left. eexists. reflexivity.
  - (* MifareUltralightTag.write *)
    autounfold with js_methods. unfold Js.assert, Js.four_bytes.
    destruct (page <? 16); cbn [andb].
    + destruct buf as [bytes | ].
      * destruct (Z.of_nat (List.length bytes) =? 4).
        -- answered_by_binding.
        -- cbn. split; [reflexivity | ]. split; [ | reflexivity].
           left. eexists. reflexivity.
      * cbn. split; [reflexivity | ]. split; [ | reflexivity].
        right. reflexivity.
    + cbn. split; [reflexivity | ]. split; [ | reflexivity].
      left. eexists. reflexivity.
  - autounfold with js_methods. answered_by_binding.
  - autounfold with js_methods. answered_by_binding.
  - autounfold with js_methods. answered_by_binding.
  - autounfold with js_methods. answered_by_binding.
  - autounfold with js_methods. answered_by_binding.
  - autounfold with js_methods. answered_by_binding.
  - autounfold with js_methods. answered_by_binding.
  - autounfold with js_methods. answered_by_binding.
  - autounfold with js_methods. answered_by_binding.
  - autounfold with js_methods. answered_by_binding.
  - autounfold with js_methods. answered_by_binding.
  - autounfold with js_methods. answered_by_binding.
  - autounfold with js_methods. answered_by_binding.
  - autounfold with js_methods. answered_by_binding.
  - autounfold with js_methods. answered_by_binding.
  - autounfold with js_methods. answered_by_binding.
  - autounfold with js_methods. answered_by_binding.
  - autounfold with js_methods. answered_by_binding.
  - autounfold with js_methods. answered_by_binding.
  - autounfold with js_methods. answered_by_binding.
Qed.

End Operations.

(** C6 on the simulated reader: read(3) on the simple paged handler is
    answered through the callback, once. *)
Lemma operation_completes_once_or_raises_witness :
  Js.settles_by_callback (Js.Ultralight_read_op 1 3) = true /\
  Js.asserts_hold (Js.Ultralight_read_op 1 3) = true /\
  fst (Js.run Bench.lib JsValue.Undefined Bench.beyond Bench.absent
         (Js.Ultralight_read_op 1 3) Bench.start)
  = JsValue.Returned [JsValue.resolve (JsValue.Buffer [0; 0; 0; 0])].
Proof.
  split; [reflexivity | ].
  pose proof (proj2 (operation_completes_once_or_raises Bench.lib
                       JsValue.Undefined Bench.beyond Bench.absent)
                (Js.Ultralight_read_op 1 3) Bench.start eq_refl) as Hrun.
  cbn in Hrun. destruct Hrun as [Hasserts _].
  split; [exact Hasserts | reflexivity].
Defined.

(** C6, as stated, fails: read(16) on the simple paged handler delivers no
    completion at all, an AssertionError leaves the method instead; and the
    constructor of Freefare raises when the driver fails to start. *)
Lemma MifareUltralightTag_read_raises :
  fst (Js.run Bench.lib JsValue.Undefined Bench.beyond Bench.absent
         (Js.Ultralight_read_op 1 16) Bench.start)
  = JsValue.Threw
      (JsValue.AssertionError
         "Mifare Ultralight tag have only 16 pages (0 to 15)") /\
  (forall p : JsValue.Promise,
     fst (Js.run Bench.lib JsValue.Undefined Bench.beyond Bench.absent
            (Js.Ultralight_read_op 1 16) Bench.start)
     <> JsValue.Returned p) /\
  Js.Freefare_constructor Common.NFF_ERROR_INIT_LIBNFC
  = Some (JsValue.Error "Could not initiate LibNFC").
Proof.
  split; [reflexivity | ].
  split; [intros p H; discriminate H | reflexivity].
Qed.

(** On the simulated reader: an ordinary read is fulfilled once, and a
    failed open is rejected once although the callback calls reject twice
    and resolve once. *)
Example Device_open_failure_rejects_once :
  Js.on_device_completion [JsValue.Number Common.NFF_ERROR_OPEN_DEVICE]
  = [ JsValue.reject (JsValue.Error "LibNFC failed to open the device");
      JsValue.reject (JsValue.UnknownError (JsValue.Number 11));
      JsValue.resolve JsValue.Undefined ] /\
  JsValue.completions
    (Js.on_device_completion [JsValue.Number Common.NFF_ERROR_OPEN_DEVICE])
  = [JsValue.reject (JsValue.Error "LibNFC failed to open the device")].
Proof. split; reflexivity. Qed.

(* ------------------------------------------------------------------ *)
(** ** Further properties of the code *)

(** *** More on the error translation (common.h) *)

Section TranslationMore.
Import Common.

(** A mapped code lands on one of the thirteen constants above
    NFF_ERROR_LIBNFC_UNKNOWN. *)
Lemma LIBNFC_ERROR_TO_NFF_mapped (nfc : nfc_errors) (error : Z) :
  In error (mapped_codes nfc) ->
  101 <= LIBNFC_ERROR_TO_NFF nfc error <= 113.
Proof.
  intros Hin. unfold LIBNFC_ERROR_TO_NFF.
  repeat match goal with
         | |- context [if ?a =? ?b then _ else _] =>
             destruct (Z.eqb_spec a b) as [_ | ?];
             [ cbv; split; discriminate | ]
         end.
  exfalso. unfold mapped_codes in Hin. simpl in Hin.
  repeat (destruct Hin as [Hin | Hin]; [congruence | ]). exact Hin.
Qed.

(** X1. The translation answers NFF_ERROR_LIBNFC_UNKNOWN for the codes
    outside the mapped set and for no other code. *)
Theorem LIBNFC_ERROR_TO_NFF_unknown_iff (nfc : nfc_errors) (error : Z) :
  LIBNFC_ERROR_TO_NFF nfc error = NFF_ERROR_LIBNFC_UNKNOWN <->
  ~ In error (mapped_codes nfc).
Proof.
  split.
  - intros Hunknown Hin.
    pose proof (LIBNFC_ERROR_TO_NFF_mapped nfc error Hin) as Hrange.
    rewrite Hunknown in Hrange. unfold NFF_ERROR_LIBNFC_UNKNOWN in Hrange.
    lia.
  - apply LIBNFC_ERROR_TO_NFF_unmapped.
Qed.

(** X2. Whatever the native code, success included, the translated code
    lies in 100..113: it is never 0, so JavaScript reads it as an error,
    and it is neither of the binding's own codes NFF_ERROR_INIT_LIBNFC and
    NFF_ERROR_OPEN_DEVICE. *)
Theorem LIBNFC_ERROR_TO_NFF_range (nfc : nfc_errors) (error : Z) :
  100 <= LIBNFC_ERROR_TO_NFF nfc error <= 113 /\
  JsValue.truthy (JsValue.Number (LIBNFC_ERROR_TO_NFF nfc error)) = true /\
  LIBNFC_ERROR_TO_NFF nfc error <> NFF_ERROR_INIT_LIBNFC /\
  LIBNFC_ERROR_TO_NFF nfc error <> NFF_ERROR_OPEN_DEVICE.
Proof.
  assert (Hrange : 100 <= LIBNFC_ERROR_TO_NFF nfc error <= 113).
  { destruct (in_dec Z.eq_dec error (mapped_codes nfc)) as [Hin | Hout].
    - pose proof (LIBNFC_ERROR_TO_NFF_mapped nfc error Hin). lia.
    - rewrite (LIBNFC_ERROR_TO_NFF_unmapped nfc error Hout).
      unfold NFF_ERROR_LIBNFC_UNKNOWN. lia. }
  split; [exact Hrange | ].
  unfold NFF_ERROR_INIT_LIBNFC, NFF_ERROR_OPEN_DEVICE. cbn [JsValue.truthy].
  repeat split; lia.
Qed.

(** X3. When the thirteen native codes are pairwise distinct, the macro
    sends them, in its own order, to 101, 102, ..., 113: each mapped code
    reaches its own constant, and no two of them share one. *)
Theorem LIBNFC_ERROR_TO_NFF_in_order (nfc : nfc_errors) :
  NoDup (mapped_codes nfc) ->
  map (LIBNFC_ERROR_TO_NFF nfc) (mapped_codes nfc)
  = [101; 102; 103; 104; 105; 106; 107; 108; 109; 110; 111; 112; 113].
Proof.
  unfold mapped_codes. intros Hdistinct.
  repeat match goal with
         | H : NoDup (_ :: _) |- _ =>
             let Hnotin := fresh "Hnotin" in
             let Hrest := fresh "Hrest" in
             apply NoDup_cons_iff in H; destruct H as [Hnotin Hrest];
             simpl in Hnotin
         end.
  repeat match goal with
         | H : ~ (_ \/ _) |- _ =>
             let Hhead := fresh "Hhead" in
             let Htail := fresh "Htail" in
             apply Decidable.not_or in H; destruct H as [Hhead Htail]
         end.
  unfold LIBNFC_ERROR_TO_NFF. cbn [map].
  repeat match goal with
         | H : ?a <> ?b |- context [?a =? ?b] =>
             rewrite (proj2 (Z.eqb_neq a b) H)
         end.
  rewrite !Z.eqb_refl. reflexivity.
Qed.

End TranslationMore.

(** X3 on libnfc's numbering, whose thirteen codes are distinct. *)
Lemma LIBNFC_ERROR_TO_NFF_in_order_witness :
  map (Common.LIBNFC_ERROR_TO_NFF Common.libnfc_errors)
    (Common.mapped_codes Common.libnfc_errors)
  = [101; 102; 103; 104; 105; 106; 107; 108; 109; 110; 111; 112; 113].
Proof.
  apply LIBNFC_ERROR_TO_NFF_in_order.
  unfold Common.mapped_codes. simpl.
  repeat (apply NoDup_cons;
          [ simpl; intros H;
            repeat (destruct H as [H | H]; [discriminate H | ]); exact H
          | ]).
  apply NoDup_nil.
Defined.

(** *** More on the device (Device::Open, Device::Abort, Device::ListTags
        and their JavaScript methods) *)

Section DeviceMore.
Import JsValue Native.
Context {world : Type} (lib : library world).

(** X4. Device.open makes one nfc_open call with the device's connection
    string and stores the pointer it returns in the Device object; its
    promise is rejected with 'LibNFC failed to open the device' exactly
    when that pointer is null, and fulfilled otherwise. *)
Theorem Device_open_outcome (this : DeviceCpp.Device) (st : state world) :
  DeviceCpp.device (fst (fst (Js.Device_open lib this st)))
  = fst (nfc_open lib (DeviceCpp.connstring this) (hw st)) /\
  DeviceCpp.connstring (fst (fst (Js.Device_open lib this st)))
  = DeviceCpp.connstring this /\
  calls (snd (Js.Device_open lib this st))
  = calls st ++ [call_nfc_open (DeviceCpp.connstring this)] /\
  exists p,
    snd (fst (Js.Device_open lib this st)) = Returned p /\
    settled p
    = Some (if fst (nfc_open lib (DeviceCpp.connstring this) (hw st)) =? 0
            then reject (Error "LibNFC failed to open the device")
            else resolve Undefined).
Proof.
  rewrite Device_open_run. cbn [fst snd calls DeviceCpp.device
    DeviceCpp.connstring].
  repeat split.
  eexists. split; [reflexivity | ].
  destruct (fst (nfc_open lib (DeviceCpp.connstring this) (hw st)) =? 0);
    reflexivity.
Qed.

(** X5. Enumeration after an open works on whatever the open stored:
    Device.listTags hands the pointer returned by nfc_open to
    freefare_get_tags, without looking at it, so after a failed open the
    card library is called with the null pointer. *)
Theorem Device_open_then_listTags (this : DeviceCpp.Device)
    (st : state world) :
  calls
    (snd (Js.Device_listTags lib (fst (fst (Js.Device_open lib this st)))
            (snd (Js.Device_open lib this st))))
  = calls st
    ++ [ call_nfc_open (DeviceCpp.connstring this);
         call_freefare_get_tags
           (fst (nfc_open lib (DeviceCpp.connstring this) (hw st))) ].
Proof.
  rewrite Device_listTags_run, Device_open_run.
  cbn [fst snd calls hw DeviceCpp.device].
  rewrite <- app_assoc. reflexivity.
Qed.

(** X6. Device.open keeps no record of an earlier open: opening twice
    calls nfc_open twice with the same connection string, makes no
    nfc_close in between, and leaves the pointer of the second call in the
    Device object. *)
Theorem Device_open_twice (this : DeviceCpp.Device) (st : state world) :
  calls
    (snd (Js.Device_open lib (fst (fst (Js.Device_open lib this st)))
            (snd (Js.Device_open lib this st))))
  = calls st
    ++ [ call_nfc_open (DeviceCpp.connstring this);
         call_nfc_open (DeviceCpp.connstring this) ] /\
  DeviceCpp.device
    (fst (fst (Js.Device_open lib (fst (fst (Js.Device_open lib this st)))
                 (snd (Js.Device_open lib this st)))))
  = fst (nfc_open lib (DeviceCpp.connstring this)
           (snd (nfc_open lib (DeviceCpp.connstring this) (hw st)))).
Proof.
  rewrite (Device_open_run lib this st).
  cbn [fst snd].
  rewrite Device_open_run.
  cbn [fst snd calls hw DeviceCpp.device DeviceCpp.connstring].
  rewrite <- app_assoc. split; reflexivity.
Qed.

(** X7. Device.abort makes one nfc_abort_command call on the stored
    pointer; its promise is fulfilled when the driver returns 0 and is
    rejected with the driver's raw code otherwise. The second argument
    that AbortWorker passes from behind its one-element array has no
    influence on the result. *)
Theorem Device_abort_outcome (overrun overrun' : js_value)
    (this : DeviceCpp.Device) (st : state world) :
  Js.Device_abort lib overrun this st = Js.Device_abort lib overrun' this st /\
  calls (snd (Js.Device_abort lib overrun this st))
  = calls st ++ [call_nfc_abort_command (DeviceCpp.device this)] /\
  exists p,
    fst (Js.Device_abort lib overrun this st) = Returned p /\
    settled p
    = Some (if fst (nfc_abort_command lib (DeviceCpp.device this) (hw st))
               =? 0
            then resolve Undefined
            else reject
                   (UnknownError
                      (Number
                         (fst (nfc_abort_command lib (DeviceCpp.device this)
                                 (hw st)))))).
Proof.
  rewrite !Device_abort_run. cbn [fst snd calls].
  repeat split.
  eexists. split; [reflexivity | ].
  unfold Js.on_completion. cbn [truthy].
  destruct (fst (nfc_abort_command lib (DeviceCpp.device this) (hw st)) =? 0);
    reflexivity.
Qed.

(** X8. When the card library hands back a null list, Device.listTags
    delivers no completion at all: the worker reads through the null
    pointer before it calls back. The one library call has been made. *)
Theorem Device_listTags_null_list (this : DeviceCpp.Device)
    (st : state world) :
  fst (freefare_get_tags lib (DeviceCpp.device this) (hw st)) = None ->
  fst (Js.Device_listTags lib this st) = Faulted /\
  calls (snd (Js.Device_listTags lib this st))
  = calls st ++ [call_freefare_get_tags (DeviceCpp.device this)].
Proof.
  intros Hnull. rewrite Device_listTags_run. cbn [fst snd calls].
  rewrite Hnull. split; reflexivity.
Qed.

(** X9. Device.close never reaches the driver: Device::Init puts no
    [close] on the prototype, so for every device and state the promise is
    rejected with a TypeError and the state is left as it was (no binding
    method entered, no nfc_close). *)
Theorem Device_close_never_reaches_driver (this : DeviceCpp.Device)
    (st : state world) :
  Js.has_method DeviceCpp.Init_methods "close" = false /\
  Js.Device_close lib this st
  = (Returned
       [reject (TypeError "this[cppObj].close is not a function")], st) /\
  calls (snd (Js.Device_close lib this st)) = calls st.
Proof. repeat split. Qed.

End DeviceMore.

(** X8 on the failing reader. *)
Lemma Device_listTags_null_list_witness :
  fst (Js.Device_listTags Faulty.lib Bench.reader Bench.start)
  = JsValue.Faulted.
Proof.
  apply (Device_listTags_null_list Faulty.lib Bench.reader Bench.start).
  reflexivity.
Defined.

(** *** More on the NTAG 21x binding methods (tag_ntag21x.cpp) *)

Section Ntag21xMore.
Import JsValue Native TagNtag21x.
Context {world : Type} (lib : library world).

(** The two conversions of the binding keep the low eight bits. *)
Lemma uint8_t_Uint32Value_mod (n : Z) : uint8_t (Uint32Value n) = n mod 256.
Proof.
  unfold uint8_t, Uint32Value.
  change (2 ^ 8) with 256. change (2 ^ 32) with (256 * 16777216).
  apply Z.mod_mod_divide. exists 16777216. lia.
Qed.

Lemma Tag_ntag21x_connect_run (tag : MifareTag) (st : state world) :
  Tag_ntag21x_connect lib tag st =
  (Some [Number (fst (ntag21x_connect lib tag (hw st)))],
   mkState
     (snd (ntag21x_get_info lib tag (snd (ntag21x_connect lib tag (hw st)))))
     (submitted st ++ [("ntag21x_connect"%string, [])])
     (calls st ++ [call_ntag21x_connect tag; call_ntag21x_get_info tag])).
Proof.
  unfold Tag_ntag21x_connect, AsyncQueueWorker, bind, ret, submit.
  cbn.
  unfold ntag21x_connectWorker.Execute, ntag21x_connectWorker.new,
    ntag21x_connectWorker.HandleOKCallback, bind, ret, invoke.
  cbn.
  destruct (ntag21x_connect lib tag (hw st)) as [e w]. cbn.
  destruct (ntag21x_get_info lib tag w) as [e' w']. cbn.
  rewrite <- app_assoc. reflexivity.
Qed.

Lemma Tag_ntag21x_write_run (beyond : memory) (tag : MifareTag) (info0 : Z)
    (info1 : list Z) (bytes : memory) (st : state world) :
  Buffer_Data beyond info1 = Some bytes ->
  Tag_ntag21x_write lib beyond tag info0 info1 st =
  (Some
     [ Number
         (fst (ntag21x_write lib tag (uint8_t (Uint32Value info0))
                 (map bytes (seq 0 4)) (hw st))) ],
   mkState
     (snd (ntag21x_write lib tag (uint8_t (Uint32Value info0))
             (map bytes (seq 0 4)) (hw st)))
     (submitted st ++ [("ntag21x_write"%string, [Number info0; Buffer info1])])
     (calls st
      ++ [ call_ntag21x_write tag (uint8_t (Uint32Value info0))
             (map bytes (seq 0 4)) ])).
Proof.
  intros Hdata.
  unfold Tag_ntag21x_write, bind, ret, submit. rewrite Hdata.
  unfold ntag21x_writeWorker.new, AsyncQueueWorker, bind, ret.
  cbn -[uint8_t Uint32Value map seq].
  unfold ntag21x_writeWorker.Execute, ntag21x_writeWorker.HandleOKCallback,
    bind, ret, invoke.
  cbn -[uint8_t Uint32Value map seq].
  destruct (ntag21x_write lib tag (uint8_t (Uint32Value info0))
              (map bytes (seq 0 4)) (hw st)) as [e w].
  reflexivity.
Qed.

(** memcpy of four bytes out of a buffer that has them: nothing behind the
    buffer is read. *)
Lemma first_four_bytes (beyond : memory) (data : list Z) :
  (4 <= List.length data)%nat ->
  exists bytes,
    Buffer_Data beyond data = Some bytes /\
    map bytes (seq 0 4) = firstn 4 data.
Proof.
  destruct data as [| b0 [| b1 [| b2 [| b3 rest]]]]; simpl; try lia.
  intros _. eexists. split; reflexivity.
Qed.

(** X10. The page number of a single-page read is cut to eight bits on
    its way to the worker: for every integer [page] the one library call
    is ntag21x_read4 on [page mod 256] (so page -1 reads page 255 and
    page 256 reads page 0), and the completion always carries a buffer of
    four bytes, whatever error the library reports. *)
Theorem Tag_ntag21x_read4_wraps (tag : MifareTag) (page : Z)
    (st : state world) :
  calls (snd (Tag_ntag21x_read4 lib tag page st))
  = calls st ++ [call_ntag21x_read4 tag (page mod 256)] /\
  fst (Tag_ntag21x_read4 lib tag (page + 256) st)
  = fst (Tag_ntag21x_read4 lib tag page st) /\
  exists (error : Z) (bytes : list Z),
    fst (Tag_ntag21x_read4 lib tag page st)
    = Some [Number error; Buffer bytes] /\
    List.length bytes = 4%nat /\
    error = fst (fst (ntag21x_read4 lib tag (page mod 256) (hw st))).
Proof.
  rewrite !Tag_ntag21x_read4_run. rewrite !uint8_t_Uint32Value_mod.
  replace ((page + 256) mod 256) with (page mod 256)
    by (rewrite <- (Z.mul_1_l 256) at 2; now rewrite Z.mod_add by lia).
  cbn [fst snd calls]. repeat split.
  eexists. eexists. repeat split.
Qed.

(** X11. For any two numbers given as the range, in or out of 0..255, the
    fast read works on their low eight bits s and e: its one library call
    is ntag21x_fast_read on s .. max(s, e), and the buffer delivered has 4
    * (max(s, e) - s + 1) bytes, between 4 and 1024. *)
Theorem Tag_ntag21x_fast_read_any_numbers (tag : MifareTag)
    (startPage endPage : Z) (st : state world) :
  calls (snd (Tag_ntag21x_fast_read lib tag startPage endPage st))
  = calls st
    ++ [ call_ntag21x_fast_read tag (startPage mod 256)
           (Z.max (startPage mod 256) (endPage mod 256)) ] /\
  exists (error : Z) (bytes : list Z),
    fst (Tag_ntag21x_fast_read lib tag startPage endPage st)
    = Some [Number error; Buffer bytes] /\
    Z.of_nat (List.length bytes)
    = 4 * (Z.max (startPage mod 256) (endPage mod 256)
           - startPage mod 256 + 1) /\
    4 <= Z.of_nat (List.length bytes) <= 1024.
Proof.
  rewrite Tag_ntag21x_fast_read_run. rewrite !uint8_t_Uint32Value_mod.
  cbn [fst snd calls]. split; [reflexivity | ].
  pose proof (Z.mod_pos_bound startPage 256 ltac:(lia)).
  pose proof (Z.mod_pos_bound endPage 256 ltac:(lia)).
  eexists. eexists. split; [reflexivity | ].
  rewrite CopyBuffer_length by lia. lia.
Qed.

(** X12. Connecting asks the card for its info whether or not the connect
    succeeded: the library calls are always ntag21x_connect, then
    ntag21x_get_info; the completion carries the status of the connect
    alone, and the JavaScript handler fulfils on 0 and rejects with the
    raw status otherwise. *)
Theorem Tag_ntag21x_connect_then_get_info (tag : MifareTag)
    (st : state world) :
  calls (snd (Tag_ntag21x_connect lib tag st))
  = calls st ++ [call_ntag21x_connect tag; call_ntag21x_get_info tag] /\
  fst (Tag_ntag21x_connect lib tag st)
  = Some [Number (fst (ntag21x_connect lib tag (hw st)))] /\
  settled
    (Js.without_result [Number (fst (ntag21x_connect lib tag (hw st)))])
  = Some (if fst (ntag21x_connect lib tag (hw st)) =? 0
          then resolve Undefined
          else reject
                 (UnknownError
                    (Number (fst (ntag21x_connect lib tag (hw st)))))).
Proof.
  rewrite Tag_ntag21x_connect_run. cbn [fst snd calls].
  repeat split.
  unfold Js.without_result, Js.on_completion, arg. cbn [nth truthy].
  destruct (fst (ntag21x_connect lib tag (hw st)) =? 0); reflexivity.
Qed.

(** X13. A write hands the library the first four bytes of the buffer and
    the low eight bits of the page number: for a buffer of at least four
    bytes the one library call is ntag21x_write on [page mod 256] with
    those four bytes, and the completion carries the library's status. *)
Theorem Tag_ntag21x_write_four_bytes (beyond : memory) (tag : MifareTag)
    (page : Z) (buf : list Z) (st : state world) :
  (4 <= List.length buf)%nat ->
  calls (snd (Tag_ntag21x_write lib beyond tag page buf st))
  = calls st ++ [call_ntag21x_write tag (page mod 256) (firstn 4 buf)] /\
  fst (Tag_ntag21x_write lib beyond tag page buf st)
  = Some
      [ Number
          (fst (ntag21x_write lib tag (page mod 256) (firstn 4 buf)
                  (hw st))) ].
Proof.
  intros Hlen.
  destruct (first_four_bytes beyond buf Hlen) as [bytes [Hdata Hfour]].
  rewrite (Tag_ntag21x_write_run beyond tag page buf bytes st Hdata).
  rewrite uint8_t_Uint32Value_mod, Hfour.
  split; reflexivity.
Qed.

(** X14. Through the prototype that Tag::Init builds, no method of
    NTag21xTag reaches its binding method: open, close, read, fastRead and
    getSubType are rejected with a TypeError and leave the state as it
    was, and so is write for a buffer of four bytes, while for any other
    buffer write raises its AssertionError first. *)
Theorem NTag21xTag_methods_rejected (beyond : memory) (tag : MifareTag)
    (page endPage : Z) (buf : list Z) (st : state world) :
  Js.NTag21xTag_open lib tag st
  = (Js.not_a_function "ntag21x_connect", st) /\
  Js.NTag21xTag_close lib tag st
  = (Js.not_a_function "ntag21x_disconnect", st) /\
  Js.NTag21xTag_read lib tag page st
  = (Js.not_a_function "ntag21x_read4", st) /\
  Js.NTag21xTag_fastRead lib tag page endPage st
  = (Js.not_a_function "ntag21x_fast_read", st) /\
  Js.NTag21xTag_getSubType lib tag st
  = (Js.not_a_function "ntag21x_get_subtype", st) /\
  Js.NTag21xTag_write lib beyond tag page (Some buf) st
  = (if Z.of_nat (List.length buf) =? 4
     then Js.not_a_function "ntag21x_write"
     else Threw
            (AssertionError
               "Length of page on Mifare Ultralight tag is 4 bytes"),
     st).
Proof.
  repeat split.
  unfold Js.NTag21xTag_write, Js.assert.
  destruct (Z.of_nat (List.length buf) =? 4); reflexivity.
Qed.

End Ntag21xMore.

(** X13 on the simulated reader. *)
Lemma Tag_ntag21x_write_four_bytes_witness :
  Native.calls
    (snd (TagNtag21x.Tag_ntag21x_write Bench.lib Bench.beyond 2 260
            [1; 2; 3; 4; 5] Bench.start))
  = [Native.call_ntag21x_write 2 4 [1; 2; 3; 4]].
Proof.
  apply (Tag_ntag21x_write_four_bytes Bench.lib Bench.beyond 2 260
           [1; 2; 3; 4; 5] Bench.start).
  simpl. lia.
Defined.

(** On the simulated reader: of a Buffer of two bytes Tag::ntag21x_write
    sends the two bytes and the two that lie behind them, and on an empty
    Buffer it faults before any library call. *)
Example Tag_ntag21x_write_short_buffers :
  Native.calls
    (snd (TagNtag21x.Tag_ntag21x_write Bench.lib Bench.beyond 2 4 [1; 2]
            Bench.start))
  = [Native.call_ntag21x_write 2 4 [1; 2; 170; 170]] /\
  TagNtag21x.Tag_ntag21x_write Bench.lib Bench.beyond 2 4 [] Bench.start
  = (None,
     Native.mkState 0%nat
       [("ntag21x_write"%string, [JsValue.Number 4; JsValue.Buffer []])] []).
Proof. split; reflexivity. Qed.

(** *** More on the JavaScript classes (index.js) *)

Section ClassesMore.
Import JsValue Native.
Context {world : Type} (lib : library world) (overrun : js_value)
  (beyond : memory).
Context (absent : string -> list js_value -> world ->
                  option (list (list js_value)) * world).

(** X15. For a page below 16, MifareUltralightTag.write looks at the
    buffer next: a buffer whose length is not 4 raises the second
    AssertionError and leaves the state as it was; a buffer of four bytes
    enters the binding method mifareUltralight_write once, with the page
    and the buffer as given, and the promise is settled by its callback,
    called as the binding method calls it. *)
Theorem MifareUltralightTag_write_cases (this : MifareTag) (page : Z)
    (buf : list Z) (st : state world) :
  page < 16 ->
  Js.MifareUltralightTag_write absent this page (Some buf) st
  = if Z.of_nat (List.length buf) =? 4
    then
      (Js.answered Js.without_result
         (fst (absent "mifareUltralight_write"%string
                 [Number page; Buffer buf] (hw st))),
       mkState
         (snd (absent "mifareUltralight_write"%string
                 [Number page; Buffer buf] (hw st)))
         (submitted st
          ++ [("mifareUltralight_write"%string, [Number page; Buffer buf])])
         (calls st))
    else
      (Threw
         (AssertionError "Length of page on Mifare Ultralight tag is 4 bytes"),
       st).
Proof.
  intros Hpage. unfold Js.MifareUltralightTag_write, Js.assert.
  destruct (Z.ltb_spec page 16) as [_ | Hge]; [ | lia].
  destruct (Z.of_nat (List.length buf) =? 4); [ | reflexivity].
  now rewrite promised_absent_run.
Qed.

Create HintDb js_run.

#[local] Hint Unfold
  Js.run Js.Device_open Js.Device_close Js.Device_abort Js.Device_listTags
  Js.MifareUltralightTag_open Js.MifareUltralightTag_close
  Js.MifareUltralightTag_read Js.MifareUltralightTag_write
  Js.MifareClassicTag_open Js.MifareClassicTag_close
  Js.MifareClassicTag_authenticate Js.MifareClassicTag_read
  Js.MifareClassicTag_write Js.MifareClassicTag_initValue
  Js.MifareClassicTag_readValue Js.MifareClassicTag_incrementValue
  Js.MifareClassicTag_decrementValue Js.MifareClassicTag_restoreValue
  Js.MifareClassicTag_transferValue
  Js.MifareDesfireTag_open Js.MifareDesfireTag_close
  Js.MifareDesfireTag_authenticateDES Js.MifareDesfireTag_authenticate3DES
  Js.MifareDesfireTag_getApplicationIds Js.MifareDesfireTag_selectApplication
  Js.MifareDesfireTag_getFileIds Js.MifareDesfireTag_read
  Js.MifareDesfireTag_write
  Js.NTag21xTag_open Js.NTag21xTag_close Js.NTag21xTag_read
  Js.NTag21xTag_fastRead Js.NTag21xTag_write Js.NTag21xTag_getSubType
  Js.promised Js.promised_absent Js.call_absent Js.assert Js.answered
  DeviceCpp.Device_Open DeviceCpp.Device_Close DeviceCpp.Device_Abort
  DeviceCpp.Device_ListTags
  AsyncQueueWorker bind ret submit invoke
  OpenWorker.methods OpenWorker.Execute OpenWorker.HandleOKCallback
  OpenWorker.new
  ListTagsWorker.methods ListTagsWorker.Execute
  ListTagsWorker.HandleOKCallback ListTagsWorker.new
  AbortWorker.methods AbortWorker.Execute AbortWorker.HandleOKCallback
  AbortWorker.new
  : js_run.

(** Runs an operation down to the answers of the library and of the
    bindings taken as parameters. *)
Ltac run_operation :=
  repeat autounfold with js_run;
  repeat match goal with
         | |- context [Js.has_method ?p ?n] =>
             let b := eval vm_compute in (Js.has_method p n) in
             change (Js.has_method p n) with b
         end;
  repeat match goal with
         | |- context [match ?buf with Some _ => _ | None => _ end] =>
             is_var buf; destruct buf
         end;
  unfold Js.four_bytes;
  repeat match goal with
         | |- context [if ?b then _ else _] =>
             lazymatch b with
             | _ <? _ => destruct b
             | Z.of_nat _ =? 4 => destruct b
             end
         end;
  cbn -[Z.eqb Js.with_result Js.without_result Js.on_completion
        Js.on_device_completion Js.listTags_callback Js.not_a_function
        Js.called_back ListTagsWorker.HandleOKCallback];
  repeat match goal with
         | |- context [let (_, _) := ?x in _] =>
             lazymatch x with
             | context [let (_, _) := _ in _] => fail
             | _ => destruct x
             end;
             cbn -[Z.eqb Js.with_result Js.without_result Js.on_completion
                   Js.on_device_completion Js.listTags_callback
                   Js.not_a_function Js.called_back
                   ListTagsWorker.HandleOKCallback]
         end;
  repeat match goal with
         | |- context [match ?r with Some _ => _ | None => _ end] =>
             destruct r; cbn [fst snd submitted]
         end.

(** X16. An operation enters at most one binding method, and none when
    one of its assertions fails; the binding methods entered before are
    kept as they were; and an operation that enters no binding method
    leaves the whole state untouched, so no library call is ever made
    outside a binding method. *)
Theorem operation_enters_at_most_one_binding (op : Js.operation)
    (st : state world) :
  exists entered : list (string * list js_value),
    submitted (snd (Js.run lib overrun beyond absent op st))
    = submitted st ++ entered /\
    (List.length entered <= 1)%nat /\
    (Js.asserts_hold op = false -> entered = []) /\
    (entered = [] -> snd (Js.run lib overrun beyond absent op st) = st).
Proof.
  destruct op; cbn [Js.asserts_hold]; run_operation.
  all: first
    [ exists []; rewrite app_nil_r;
      repeat split; solve [ auto | cbn; lia | discriminate ]
    | eexists [_]; repeat split;
      solve [ auto | cbn; lia | discriminate ] ].
Qed.

End ClassesMore.

(** X15 on the simulated reader: page 3 with three bytes is refused before
    anything is entered. *)
Lemma MifareUltralightTag_write_cases_witness :
  Js.MifareUltralightTag_write Bench.absent 1 3 (Some [1; 2; 3]) Bench.start
  = (JsValue.Threw
       (JsValue.AssertionError
          "Length of page on Mifare Ultralight tag is 4 bytes"),
     Bench.start).
Proof.
  apply (MifareUltralightTag_write_cases Bench.absent 1 3 [1; 2; 3]
           Bench.start).
  lia.
Defined.

(** *** More on enumeration (Device.listTags, Tag::GetTagType,
        Tag::Instantiate) *)

Section DispatchMore.
Import JsValue Native.
Context {world : Type} (lib : library world).

(** X17. The rows of the dispatch that the C++ and the JavaScript side
    agree on. Handed a list of wrapped tags, the callback of
    Device.listTags builds an array whose i-th handler wraps the i-th tag
    of the list, and it is a MifareClassicTag for a card of family
    CLASSIC_1K or CLASSIC_4K, a MifareDesfireTag for DESFIRE and a
    MifareUltralightTag for ULTRALIGHT; the callback resolves with that
    array after it has rejected on a truthy error. *)
Theorem listTags_known_families (error : js_value) (tags : list MifareTag)
    (i : nat) (tag : MifareTag) :
  nth_error tags i = Some tag ->
  exists res,
    Js.listTags_callback lib [error; Array (map CppTag tags)]
    = Returned
        ((if truthy error then [reject (UnknownError error)] else [])
         ++ [resolve (Array res)]) /\
    (freefare_get_tag_type lib tag = CLASSIC_1K ->
     nth_error res i = Some (Handler MifareClassicTag (CppTag tag))) /\
    (freefare_get_tag_type lib tag = CLASSIC_4K ->
     nth_error res i = Some (Handler MifareClassicTag (CppTag tag))) /\
    (freefare_get_tag_type lib tag = DESFIRE ->
     nth_error res i = Some (Handler MifareDesfireTag (CppTag tag))) /\
    (freefare_get_tag_type lib tag = ULTRALIGHT ->
     nth_error res i = Some (Handler MifareUltralightTag (CppTag tag))).
Proof.
  intros Hnth. rewrite listTags_callback_wrapped.
  eexists. split; [reflexivity | ].
  rewrite nth_error_map, Hnth. cbn [option_map].
  unfold Js.listTags_wrap, TagCpp.GetTagType.
  repeat split; intros Hfamily; rewrite Hfamily; reflexivity.
Qed.

(** What the loop of the callback makes of its items: all of them wrapped
    tags, each in a handler of a class other than NTag21xTag. *)
Lemma listTags_loop_classes (items res : list js_value) (h : js_value) :
  Js.listTags_loop lib items = Some res ->
  In h res ->
  exists (class : handler_class) (tag : MifareTag),
    h = Handler class (CppTag tag) /\
    class <> NTag21xTag /\
    In (CppTag tag) items.
Proof.
  revert res. induction items as [| item rest IH]; intros res Hloop Hin.
  - injection Hloop as <-. contradiction.
  - cbn in Hloop. destruct item; try discriminate Hloop.
    destruct (Js.listTags_loop lib rest) as [res' | ];
      [ | discriminate Hloop].
    injection Hloop as <-. destruct Hin as [<- | Hin].
    + eexists. eexists. split; [apply listTags_wrap_table | ].
      split; [ | left; reflexivity].
      destruct (freefare_get_tag_type lib tag); discriminate.
    + destruct (IH res' eq_refl Hin) as [class [tag' [Hh [Hclass Hitem]]]].
      exists class, tag'. split; [exact Hh | ].
      split; [exact Hclass | right; exact Hitem].
Qed.

(** X18. The callback of Device.listTags never yields an NTag21xTag, and
    never a handler of a tag it was not handed: whatever arguments the
    binding method calls it with, every element of an array it resolves
    with is a handler of one of the other four classes around one of the
    wrapped tags of the list it received. *)
Theorem listTags_never_NTag21xTag (argv : list js_value) (p : Promise)
    (res : list js_value) (h : js_value) :
  Js.listTags_callback lib argv = Returned p ->
  In (resolve (Array res)) p ->
  In h res ->
  exists (class : handler_class) (tag : MifareTag),
    h = Handler class (CppTag tag) /\
    class <> NTag21xTag /\
    exists items, arg 1 argv = Array items /\ In (CppTag tag) items.
Proof.
  unfold Js.listTags_callback. intros Hcallback Hresolved Hin.
  destruct (arg 1 argv) as [ | | | | | items | | | ];
    try discriminate Hcallback.
  destruct (Js.listTags_loop lib items) as [res' | ] eqn:Hloop;
    [ | discriminate Hcallback].
  injection Hcallback as <-.
  assert (Hres : res' = res).
  { apply in_app_or in Hresolved. destruct Hresolved as [Hrej | Hres].
    - destruct (truthy (arg 0 argv)); simpl in Hrej.
      + destruct Hrej as [Hrej | []]. discriminate Hrej.
      + contradiction.
    - destruct Hres as [Hres | []]. now injection Hres. }
  subst res'.
  destruct (listTags_loop_classes items res h Hloop Hin)
    as [class [tag [Hh [Hclass Hitem]]]].
  exists class, tag. split; [exact Hh | ].
  split; [exact Hclass | ]. exists items. split; [reflexivity | exact Hitem].
Qed.

(** X19. Tag::Instantiate hands the tag to Tag::New through the static
    constructorTag: the object built wraps that very tag, whatever the
    static held before, and the static is null again afterwards. But the
    handle returned belongs to the HandleScope of Tag::Instantiate, which
    has closed, and so does the one Device::Instantiate returns. The loop
    of ListTagsWorker::HandleOKCallback uses it at once, so it ends at its
    first turn: the worker calls back only for an empty list, with a null
    error and an empty array, and Device.listTags delivers no completion
    whenever the card library reports one card or more, its one library
    call made. *)
Theorem Tag_Instantiate_scope_closed (tag : MifareTag)
    (rest : list MifareTag) (constructorTag : MifareTag)
    (this : DeviceCpp.Device) (st : state world) :
  referent (fst (TagCpp.Tag_Instantiate tag constructorTag)) = CppTag tag /\
  snd (TagCpp.Tag_Instantiate tag constructorTag) = 0 /\
  use (fst (TagCpp.Tag_Instantiate tag constructorTag)) = None /\
  use (DeviceCpp.Device_Instantiate (DeviceCpp.connstring this)
         (DeviceCpp.device this)) = None /\
  ListTagsWorker.instantiate_all (tag :: rest) constructorTag = (None, 0) /\
  ListTagsWorker.HandleOKCallback
    {| ListTagsWorker.deviceabc := DeviceCpp.device this;
       ListTagsWorker.tags := Some (tag :: rest) |} = None /\
  ListTagsWorker.HandleOKCallback
    {| ListTagsWorker.deviceabc := DeviceCpp.device this;
       ListTagsWorker.tags := Some [] |} = Some [Null; Array []] /\
  (fst (freefare_get_tags lib (DeviceCpp.device this) (hw st))
   = Some (tag :: rest) ->
   fst (Js.Device_listTags lib this st) = Faulted /\
   calls (snd (Js.Device_listTags lib this st))
   = calls st ++ [call_freefare_get_tags (DeviceCpp.device this)]) /\
  (fst (freefare_get_tags lib (DeviceCpp.device this) (hw st)) = Some [] ->
   fst (Js.Device_listTags lib this st) = Returned [resolve (Array [])]).
Proof.
  repeat (split; [reflexivity | ]).
  split; intros Hfound; rewrite Device_listTags_run; cbn [fst snd calls];
    rewrite Hfound; [split | ]; reflexivity.
Qed.

End DispatchMore.

(** X17 on the simulated reader: card 1, an Ultralight, comes first and
    gets a MifareUltralightTag. *)
Lemma listTags_known_families_witness :
  exists res,
    Js.listTags_callback Bench.lib
      [JsValue.Null;
       JsValue.Array [JsValue.CppTag 1; JsValue.CppTag 2; JsValue.CppTag 3]]
    = JsValue.Returned [JsValue.resolve (JsValue.Array res)] /\
    nth_error res 0
    = Some (JsValue.Handler JsValue.MifareUltralightTag (JsValue.CppTag 1)).
Proof.
  destruct (listTags_known_families Bench.lib JsValue.Null [1; 2; 3] 0 1
              eq_refl)
    as [res [Hres [_ [_ [_ Hultralight]]]]].
  exists res. split; [exact Hres | ]. apply Hultralight. reflexivity.
Defined.

(** X18 on the simulated reader: the handler around card 2, the NTAG 21x,
    is of a class other than NTag21xTag. *)
Lemma listTags_never_NTag21xTag_witness :
  exists (class : JsValue.handler_class) (tag : JsValue.MifareTag),
    JsValue.Handler JsValue.Tag (JsValue.CppTag 2)
    = JsValue.Handler class (JsValue.CppTag tag) /\
    class <> JsValue.NTag21xTag /\
    exists items,
      JsValue.arg 1
        [JsValue.Null;
         JsValue.Array
           [JsValue.CppTag 1; JsValue.CppTag 2; JsValue.CppTag 3]]
      = JsValue.Array items /\
      In (JsValue.CppTag tag) items.
Proof.
  apply (listTags_never_NTag21xTag Bench.lib
           [JsValue.Null;
            JsValue.Array
              [JsValue.CppTag 1; JsValue.CppTag 2; JsValue.CppTag 3]]
           [JsValue.resolve
              (JsValue.Array
                 [ JsValue.Handler JsValue.MifareUltralightTag
                     (JsValue.CppTag 1);
                   JsValue.Handler JsValue.Tag (JsValue.CppTag 2);
                   JsValue.Handler JsValue.Tag (JsValue.CppTag 3) ])]
           [ JsValue.Handler JsValue.MifareUltralightTag (JsValue.CppTag 1);
             JsValue.Handler JsValue.Tag (JsValue.CppTag 2);
             JsValue.Handler JsValue.Tag (JsValue.CppTag 3) ]).
  - reflexivity.
  - simpl. auto.
  - simpl. auto.
Defined.

(** X19 on the simulated reader, with its three cards in the field. *)
Example Device_listTags_on_bench :
  fst (Js.Device_listTags Bench.lib Bench.reader Bench.start)
  = JsValue.Faulted /\
  Native.calls (snd (Js.Device_listTags Bench.lib Bench.reader Bench.start))
  = [Native.call_freefare_get_tags 7].
Proof. split; reflexivity. Qed.

(** *** Freefare.listDevices and the constructor of Device (index.js),
        over Device::New *)

Section ListDevices.
Import JsValue.

(** X20. The callback of Freefare.listDevices: given a list of wrapped
    devices it never raises, and the promise is rejected with 'Unknown
    error during device list' when the error argument is truthy, the list
    notwithstanding, and is otherwise fulfilled with one Device per entry,
    in order, each named after the connection string its wrapped object
    was built with. Given no list, the loop raises, and with a falsy error
    the promise is never settled. *)
Theorem listDevices_callback_outcome (error : js_value)
    (connstrings : list string) (unset : nfc_device) :
  snd (JsFreefare.listDevices_callback error
         (Some (map (fun c => DeviceCpp.Device_New_construct c unset)
                  connstrings)))
  = None /\
  hd_error
    (fst (JsFreefare.listDevices_callback error
            (Some (map (fun c => DeviceCpp.Device_New_construct c unset)
                     connstrings))))
  = Some
      (if truthy error
       then JsFreefare.reject_devices (Error "Unknown error during device list")
       else JsFreefare.resolve_devices
              (map JsFreefare.Device_constructor
                 (map (fun c => DeviceCpp.Device_New_construct c unset)
                    connstrings))) /\
  map JsFreefare.name
    (map JsFreefare.Device_constructor
       (map (fun c => DeviceCpp.Device_New_construct c unset) connstrings))
  = connstrings /\
  snd (JsFreefare.listDevices_callback error None) <> None /\
  (truthy error = false ->
   fst (JsFreefare.listDevices_callback error None) = []).
Proof.
  unfold JsFreefare.listDevices_callback.
  split; [reflexivity | ].
  split; [destruct (truthy error); reflexivity | ].
  split.
  - rewrite !map_map. cbn. induction connstrings as [| c rest IH];
      cbn; [reflexivity | now rewrite IH].
  - split; [discriminate | ]. intros Hfalsy. now rewrite Hfalsy.
Qed.

End ListDevices.
